(** * generate_icon.py: the macOS icon-set generator

    A shallow embedding of [create_app_icon] (src/generate_icon.py) and the
    properties its specification states about it.

    The script draws a fixed scene on a 1024x1024 Pillow image, resizes it
    to ten sizes, saves each as a PNG and writes a constant [Contents.json].
    The embedding keeps the statements of the script in program order, in a
    small error-and-state monad whose state holds the image under
    construction, the file system and a log of the library calls made.

    What Pillow does inside a call is not part of the repository: which
    pixels a shape covers and what the Lanczos filter computes are
    parameters of the development (Section [Script]). *)

From Stdlib Require Import ZArith List String Ascii DecimalString Lia.
From stdpp Require Import base gmap strings.

Open Scope string_scope.
Open Scope Z_scope.

(** ** Colours and pixels *)

(** A pixel holds one value per band of the image's mode. *)
Definition Pixel := list Z.

(** The two Pillow modes that matter here: ['RGB'] (three bands) and
    ['RGBA'] (three bands and an alpha band). *)
Inductive Mode := RGB | RGBA.

Definition mode_of_string (s : string) : option Mode :=
  if String.eqb s "RGB" then Some RGB
  else if String.eqb s "RGBA" then Some RGBA
  else None.

Definition has_alpha (m : Mode) : bool :=
  match m with RGB => false | RGBA => true end.

Definition hex_digit (c : ascii) : option Z :=
  let n := Z.of_nat (nat_of_ascii c) in
  if (48 <=? n) && (n <=? 57) then Some (n - 48)
  else if (65 <=? n) && (n <=? 70) then Some (n - 55)
  else if (97 <=? n) && (n <=? 102) then Some (n - 87)
  else None.

Definition hex_byte (hi lo : ascii) : option Z :=
  match hex_digit hi, hex_digit lo with
  | Some h, Some l => Some (16 * h + l)
  | _, _ => None
  end.

(** [ImageColor.getrgb] on the one colour syntax the script uses,
    ['#rrggbb']; any other string is refused here. *)
Definition getrgb (color : string) : option (Z * Z * Z) :=
  match color with
  | String "#" (String r1 (String r2 (String g1 (String g2
      (String b1 (String b2 EmptyString)))))) =>
      match hex_byte r1 r2, hex_byte g1 g2, hex_byte b1 b2 with
      | Some r, Some g, Some b => Some (r, g, b)
      | _, _, _ => None
      end
  | _ => None
  end.

(** [ImageColor.getcolor]: the ink a colour string denotes in a mode. An
    opaque colour gets alpha 255 in a mode with an alpha band. *)
Definition getcolor (color : string) (m : Mode) : option Pixel :=
  match getrgb color with
  | Some (r, g, b) =>
      Some (match m with RGB => [r; g; b] | RGBA => [r; g; b; 255] end)
  | None => None
  end.

(** ** Images and shapes *)

Record Image := mkImage {
  im_mode : Mode;
  im_size : Z * Z;
  im_px : Z -> Z -> Pixel
}.

Definition in_image (im : Image) (x y : Z) : bool :=
  (0 <=? x) && (x <? fst (im_size im)) && (0 <=? y) && (y <? snd (im_size im)).

(** [Image.getpixel]: defined inside the image only. *)
Definition getpixel (im : Image) (x y : Z) : option Pixel :=
  if in_image im x y then Some (im_px im x y) else None.

(** Opacity of a pixel, 0 (transparent) to 255 (opaque): the alpha band
    where the mode has one, 255 where it has none. *)
Definition opacity (im : Image) (x y : Z) : Z :=
  if has_alpha (im_mode im) then nth 3 (im_px im x y) 255 else 255.

Definition Box := (Z * Z * Z * Z)%type.

(** The three [ImageDraw] calls of the script, with their arguments. *)
Inductive Shape :=
| RoundedRectangle (xy : Box) (radius : Z)
| Rectangle (xy : Box)
| Polygon (pts : list (Z * Z)).

(** Every coordinate a shape is given. *)
Definition coords (s : Shape) : list Z :=
  match s with
  | RoundedRectangle (x0, y0, x1, y1) _ => [x0; y0; x1; y1]
  | Rectangle (x0, y0, x1, y1) => [x0; y0; x1; y1]
  | Polygon pts => flat_map (fun p => [fst p; snd p]) pts
  end.

Definition xs_of (s : Shape) : list Z :=
  match s with
  | RoundedRectangle (x0, _, x1, _) _ => [x0; x1]
  | Rectangle (x0, _, x1, _) => [x0; x1]
  | Polygon pts => map fst pts
  end.

Definition ys_of (s : Shape) : list Z :=
  match s with
  | RoundedRectangle (_, y0, _, y1) _ => [y0; y1]
  | Rectangle (_, y0, _, y1) => [y0; y1]
  | Polygon pts => map snd pts
  end.

Definition all_in (lo hi : Z) (l : list Z) : bool :=
  forallb (fun c => (lo <=? c) && (c <=? hi)) l.

(** The bounding box test of a shape: [x] between its x-coordinates and
    [y] between its y-coordinates. *)
Definition in_bbox (s : Shape) (x y : Z) : bool :=
  existsb (fun a => a <=? x) (xs_of s) && existsb (fun a => x <=? a) (xs_of s)
  && existsb (fun b => b <=? y) (ys_of s) && existsb (fun b => y <=? b) (ys_of s).

(** ** The file system and the log *)

Inductive Node :=
| Dir
| Png (im : Image)
| Text (s : string).

Inductive Event :=
| Draw (s : Shape) (fill : string)
| Makedirs (path : string)
| Save (path : string) (size : Z * Z)
| Write (path : string)
| Print (line : string).

Definition is_draw (e : Event) : bool :=
  match e with Draw _ _ => true | _ => false end.

Inductive Error :=
| ValueError
| NoImage
| FileExistsError
| FileNotFoundError
| IsADirectoryError.

Inductive Result (A : Type) :=
| Ok (a : A)
| Raise (e : Error).
Arguments Ok {A} a.
Arguments Raise {A} e.

Record State := mkState {
  img : option Image;
  fs : gmap string Node;
  log : list Event
}.

(** A process starts with no image and an empty log, on a file system. *)
Definition start (disk : gmap string Node) : State :=
  {| img := None; fs := disk; log := [] |}.

Definition M (A : Type) : Type := State -> Result (A * State).

Definition ret {A} (a : A) : M A := fun st => Ok (a, st).

Definition bind {A B} (m : M A) (k : A -> M B) : M B :=
  fun st =>
    match m st with
    | Ok (a, st') => k a st'
    | Raise e => Raise e
    end.

Declare Scope script_scope.
Delimit Scope script_scope with script.
Notation "x <- m ;; k" := (bind m (fun x => k))
  (at level 100, m at next level, right associativity) : script_scope.
Notation "m ;;; k" := (bind m (fun _ => k))
  (at level 100, right associativity) : script_scope.
Open Scope script_scope.

(** [for x in l: body x] *)
Fixpoint for_ {A} (l : list A) (body : A -> M unit) : M unit :=
  match l with
  | [] => ret tt
  | x :: l' => body x ;;; for_ l' body
  end.

(** [range(n)] *)
Definition range (n : nat) : list Z := map Z.of_nat (seq 0 n).

Definition emit (e : Event) : M unit :=
  fun st => Ok (tt, {| img := img st; fs := fs st; log := log st ++ [e] |}).

Definition print (line : string) : M unit := emit (Print line).

(** ** Paths and text *)

Definition nl : string := String (ascii_of_nat 10) EmptyString.

(** [str(n)] for an integer. *)
Definition str (n : Z) : string :=
  NilEmpty.string_of_int (Z.to_int n).

(** Position of the last ['/'] of a path, if any. *)
Fixpoint last_slash (s : string) (i : nat) (found : option nat) : option nat :=
  match s with
  | EmptyString => found
  | String c s' =>
      last_slash s' (S i) (if Ascii.eqb c "/" then Some i else found)
  end.

(** [os.path.dirname] *)
Definition dirname (path : string) : string :=
  match last_slash path 0 None with
  | Some i => substring 0 i path
  | None => ""
  end.

Fixpoint ends_with_aux (suffix s : string) (fuel : nat) : bool :=
  if String.eqb s suffix then true
  else match fuel, s with
       | S fuel', String _ s' => ends_with_aux suffix s' fuel'
       | _, _ => false
       end.

(** [s.endswith(suffix)] *)
Definition ends_with (suffix s : string) : bool :=
  ends_with_aux suffix s (String.length s).

(** String literals of this file write ['] where the script's text has a
    double quote; [quoted] puts the double quotes back. The script's
    [contents_json] has no apostrophe of its own. *)
Fixpoint quoted (s : string) : string :=
  match s with
  | EmptyString => EmptyString
  | String c s' =>
      String (if Ascii.eqb c "'" then ascii_of_nat 34 else c) (quoted s')
  end.

(** ** The constants of [create_app_icon] *)

(* Create 1024x1024 icon (required for macOS) *)
Definition size : Z := 1024.

(* Colors *)
Definition bg_color : string := "#2C3E50".      (* Dark blue-gray background *)
Definition pane_color : string := "#ECF0F1".    (* Light gray panes *)
Definition accent_color : string := "#3498DB".  (* Blue accent *)
Definition arrow_color : string := "#E74C3C".   (* Red arrows *)

Definition margin : Z := 80.

Definition left_pane_x : Z := 150.
Definition left_pane_y : Z := 200.
Definition pane_width : Z := 320.
Definition pane_height : Z := 624.
Definition right_pane_x : Z := 554.

Definition file_y_start : Z := 250.
Definition file_height : Z := 50.
Definition file_spacing : Z := 70.

Definition arrow_y : Z := 512.
Definition arrow_start_x : Z := left_pane_x + pane_width + 20.
Definition arrow_end_x : Z := right_pane_x - 20.
Definition arrow_width : Z := 25.

Definition arrow_head_points : list (Z * Z) :=
  [ (arrow_end_x - 40, arrow_y - 50);
    (arrow_end_x, arrow_y);
    (arrow_end_x - 40, arrow_y + 50) ].

Definition arrow_y2 : Z := 612.

Definition arrow_head_points2 : list (Z * Z) :=
  [ (arrow_start_x + 40, arrow_y2 - 50);
    (arrow_start_x, arrow_y2);
    (arrow_start_x + 40, arrow_y2 + 50) ].

Definition output_dir : string := "AppIcon.appiconset".

(* Generate all required sizes for macOS *)
Definition sizes : list (Z * string) :=
  [ (16, "16x16");
    (32, "16x16@2x");
    (32, "32x32");
    (64, "32x32@2x");
    (128, "128x128");
    (256, "128x128@2x");
    (256, "256x256");
    (512, "256x256@2x");
    (512, "512x512");
    (1024, "512x512@2x") ].

Definition contents_json : string := quoted "{
  'images' : [
    {
      'filename' : 'icon_16x16.png',
      'idiom' : 'mac',
      'scale' : '1x',
      'size' : '16x16'
    },
    {
      'filename' : 'icon_16x16@2x.png',
      'idiom' : 'mac',
      'scale' : '2x',
      'size' : '16x16'
    },
    {
      'filename' : 'icon_32x32.png',
      'idiom' : 'mac',
      'scale' : '1x',
      'size' : '32x32'
    },
    {
      'filename' : 'icon_32x32@2x.png',
      'idiom' : 'mac',
      'scale' : '2x',
      'size' : '32x32'
    },
    {
      'filename' : 'icon_128x128.png',
      'idiom' : 'mac',
      'scale' : '1x',
      'size' : '128x128'
    },
    {
      'filename' : 'icon_128x128@2x.png',
      'idiom' : 'mac',
      'scale' : '2x',
      'size' : '128x128'
    },
    {
      'filename' : 'icon_256x256.png',
      'idiom' : 'mac',
      'scale' : '1x',
      'size' : '256x256'
    },
    {
      'filename' : 'icon_256x256@2x.png',
      'idiom' : 'mac',
      'scale' : '2x',
      'size' : '256x256'
    },
    {
      'filename' : 'icon_512x512.png',
      'idiom' : 'mac',
      'scale' : '1x',
      'size' : '512x512'
    },
    {
      'filename' : 'icon_512x512@2x.png',
      'idiom' : 'mac',
      'scale' : '2x',
      'size' : '512x512'
    }
  ],
  'info' : {
    'author' : 'xcode',
    'version' : 1
  }
}".

(** The functions the script defines, with their parameters. *)
Definition module_defs : list (string * list string) :=
  [ ("create_app_icon", []) ].

(** ** The script *)

Inductive Resampling := NEAREST | BOX | BILINEAR | HAMMING | BICUBIC | LANCZOS.

Section Script.

(** Pillow's rasteriser: [mask s x y] says whether drawing shape [s]
    touches pixel [(x, y)]. *)
Variable mask : Shape -> Z -> Z -> bool.

(** Pillow's resampling: [resample f im size x y] is the pixel at [(x, y)]
    of [im] resized to [size] with filter [f]. *)
Variable resample : Resampling -> Image -> Z * Z -> Z -> Z -> Pixel.

(** *** The library calls *)

(** [img = Image.new(mode, size, color=color); draw = ImageDraw.Draw(img)]:
    the new image becomes the image the drawing calls work on. *)
Definition Image_new (mode : string) (sz : Z * Z) (color : string) : M unit :=
  fun st =>
    match mode_of_string mode with
    | None => Raise ValueError
    | Some m =>
        match getcolor color m with
        | None => Raise ValueError
        | Some ink =>
            Ok (tt, {| img := Some {| im_mode := m; im_size := sz;
                                      im_px := fun _ _ => ink |};
                       fs := fs st; log := log st |})
        end
    end.

(** Filling a shape overwrites the pixels it touches with the ink and
    leaves the others as they were. *)
Definition paint (s : Shape) (ink : Pixel) (im : Image) : Image :=
  {| im_mode := im_mode im; im_size := im_size im;
     im_px := fun x y => if mask s x y then ink else im_px im x y |}.

Definition draw_shape (s : Shape) (fill : string) : M unit :=
  fun st =>
    match img st with
    | None => Raise NoImage
    | Some im =>
        match getcolor fill (im_mode im) with
        | None => Raise ValueError
        | Some ink =>
            Ok (tt, {| img := Some (paint s ink im); fs := fs st;
                       log := log st ++ [Draw s fill] |})
        end
    end.

Definition rounded_rectangle (xy : Box) (radius : Z) (fill : string) : M unit :=
  draw_shape (RoundedRectangle xy radius) fill.

Definition rectangle (xy : Box) (fill : string) : M unit :=
  draw_shape (Rectangle xy) fill.

Definition polygon (pts : list (Z * Z)) (fill : string) : M unit :=
  draw_shape (Polygon pts) fill.

(** [os.makedirs(path, exist_ok=True)] for a path of one component: an
    existing directory is accepted, an existing file is not. The disk of
    this model has no permissions and no capacity: where the call passes
    here, the operating system can still refuse it ([PermissionError],
    [OSError]). What is proved of a run that returns holds of every real
    run that returns; that a run does return is a fact of the model. *)
Definition makedirs (path : string) : M unit :=
  fun st =>
    match fs st !! path with
    | None =>
        Ok (tt, {| img := img st; fs := <[path := Dir]> (fs st);
                   log := log st ++ [Makedirs path] |})
    | Some Dir =>
        Ok (tt, {| img := img st; fs := fs st;
                   log := log st ++ [Makedirs path] |})
    | Some _ => Raise FileExistsError
    end.

(** Opening [path] for writing: its directory must exist and [path]
    must not be a directory itself. As for [makedirs], a refusal by the
    operating system ([PermissionError], [OSError]) is left out. *)
Definition open_w (path : string) (disk : gmap string Node) : option Error :=
  let parent_ok :=
    if String.eqb (dirname path) "" then true
    else match disk !! dirname path with Some Dir => true | _ => false end in
  if parent_ok then
    match disk !! path with
    | Some Dir => Some IsADirectoryError
    | _ => None
    end
  else Some FileNotFoundError.

(** [img.resize(size, filter)]: a new image of the requested size, in the
    mode of the source. Pillow refuses a width or height below 1 with
    [ValueError]; the sizes of the script are 16 to 1024 and this model
    leaves the refusal out. *)
Definition resize (sz : Z * Z) (filter : Resampling) : M Image :=
  fun st =>
    match img st with
    | None => Raise NoImage
    | Some im =>
        Ok ({| im_mode := im_mode im; im_size := sz;
               im_px := resample filter im sz |}, st)
    end.

(** [im.save(path)]: the format comes from the extension. *)
Definition save (im : Image) (path : string) : M unit :=
  fun st =>
    if ends_with ".png" path then
      match open_w path (fs st) with
      | Some e => Raise e
      | None =>
          Ok (tt, {| img := img st; fs := <[path := Png im]> (fs st);
                     log := log st ++ [Save path (im_size im)] |})
      end
    else Raise ValueError.

(** [with open(path, 'w') as f: f.write(text)] *)
Definition write_text (path text : string) : M unit :=
  fun st =>
    match open_w path (fs st) with
    | Some e => Raise e
    | None =>
        Ok (tt, {| img := img st; fs := <[path := Text text]> (fs st);
                   log := log st ++ [Write path] |})
    end.

(** *** [create_app_icon], statement by statement *)

(* lines 7-9 *)
Definition new_canvas : M unit :=
  Image_new "RGB" (size, size) "#2C3E50".

(* Draw rounded rectangle background, lines 17-23 *)
Definition draw_background : M unit :=
  rounded_rectangle (margin, margin, size - margin, size - margin) 120 bg_color.

(* Left pane and right pane, lines 25-42 *)
Definition draw_panes : M unit :=
  rounded_rectangle
    (left_pane_x, left_pane_y, left_pane_x + pane_width, left_pane_y + pane_height)
    30 pane_color ;;;
  rounded_rectangle
    (right_pane_x, left_pane_y, right_pane_x + pane_width, left_pane_y + pane_height)
    30 pane_color.

(* Add "file" rectangles in left pane and in right pane, lines 44-63 *)
Definition draw_files : M unit :=
  for_ (range 5) (fun i =>
    let y := file_y_start + (i * file_spacing) in
    rounded_rectangle
      (left_pane_x + 30, y, left_pane_x + pane_width - 30, y + file_height)
      8 accent_color) ;;;
  for_ (range 3) (fun i =>
    let y := file_y_start + (i * file_spacing) in
    rounded_rectangle
      (right_pane_x + 30, y, right_pane_x + pane_width - 30, y + file_height)
      8 accent_color).

(* Draw transfer arrows, lines 65-100; [//] is floor division, as [Z.div] *)
Definition draw_arrows : M unit :=
  (* Right arrow shaft *)
  rectangle
    (arrow_start_x, arrow_y - arrow_width / 2, arrow_end_x - 40, arrow_y + arrow_width / 2)
    arrow_color ;;;
  (* Right arrow head *)
  polygon arrow_head_points arrow_color ;;;
  (* Left arrow shaft *)
  rectangle
    (arrow_start_x + 40, arrow_y2 - arrow_width / 2, arrow_end_x, arrow_y2 + arrow_width / 2)
    arrow_color ;;;
  (* Left arrow head *)
  polygon arrow_head_points2 arrow_color.

(* Save the main icon, lines 102-123 *)
Definition export_icons : M unit :=
  makedirs output_dir ;;;
  for_ sizes (fun '(pixel_size, name) =>
    resized <- resize (pixel_size, pixel_size) LANCZOS ;;
    save resized (output_dir +:+ "/icon_" +:+ name +:+ ".png") ;;;
    print ("Created icon_" +:+ name +:+ ".png (" +:+ str pixel_size +:+ "x"
           +:+ str pixel_size +:+ ")")).

(* Create Contents.json, lines 125-196 *)
Definition write_contents : M unit :=
  write_text (output_dir +:+ "/Contents.json") contents_json.

(* lines 198-202 *)
Definition print_next_steps : M unit :=
  print (nl +:+ "Icon set created in " +:+ output_dir +:+ "/") ;;;
  print "Next steps:" ;;;
  print "1. In Xcode, open Assets.xcassets" ;;;
  print "2. Delete the existing AppIcon" ;;;
  print "3. Drag the AppIcon.appiconset folder into Assets.xcassets".

(** The drawing statements, lines 7-100. *)
Definition draw_icon : M unit :=
  new_canvas ;;; draw_background ;;; draw_panes ;;; draw_files ;;; draw_arrows.

Definition create_app_icon : M unit :=
  draw_icon ;;; export_icons ;;; write_contents ;;; print_next_steps.

(** The same script with the background overlay of lines 17-23 left out. *)
Definition draw_icon_without_overlay : M unit :=
  new_canvas ;;; draw_panes ;;; draw_files ;;; draw_arrows.

(** The log of a result. *)
Definition events (r : Result (unit * State)) : list Event :=
  match r with Ok (_, st) => log st | Raise _ => [] end.

(** *** What a run leaves behind *)

Definition blank : Image :=
  {| im_mode := RGB; im_size := (0, 0); im_px := fun _ _ => [] |}.

(** The image the drawing statements produce. *)
Definition canvas : Image :=
  match draw_icon (start ∅) with
  | Ok (_, st) => default blank (img st)
  | Raise _ => blank
  end.

(** The image the drawing statements produce when the overlay is left out. *)
Definition canvas_without_overlay : Image :=
  match draw_icon_without_overlay (start ∅) with
  | Ok (_, st) => default blank (img st)
  | Raise _ => blank
  end.

Definition icon_path (name : string) : string :=
  output_dir +:+ "/icon_" +:+ name +:+ ".png".

Definition contents_path : string := output_dir +:+ "/Contents.json".

(** The resized copy of [im] the loop saves for [pixel_size]. *)
Definition icon_of (im : Image) (pixel_size : Z) : Image :=
  {| im_mode := im_mode im; im_size := (pixel_size, pixel_size);
     im_px := resample LANCZOS im (pixel_size, pixel_size) |}.

Definition created (pixel_size : Z) (name : string) : string :=
  "Created icon_" +:+ name +:+ ".png (" +:+ str pixel_size +:+ "x"
  +:+ str pixel_size +:+ ")".

(** Writing a list of nodes to a disk, first to last. *)
Fixpoint put_all (kvs : list (string * Node)) (disk : gmap string Node)
  : gmap string Node :=
  match kvs with
  | [] => disk
  | (k, v) :: rest => put_all rest (<[k := v]> disk)
  end.

Definition icon_writes (im : Image) (l : list (Z * string)) : list (string * Node) :=
  map (fun '(pixel_size, name) => (icon_path name, Png (icon_of im pixel_size))) l.

Definition icon_events (l : list (Z * string)) : list Event :=
  flat_map (fun '(pixel_size, name) =>
              [ Save (icon_path name) (pixel_size, pixel_size);
                Print (created pixel_size name) ]) l.

(** Everything a run writes, in order. *)
Definition all_writes : list (string * Node) :=
  (output_dir, Dir) :: icon_writes canvas sizes
  ++ [ (contents_path, Text contents_json) ].

(** The paths a run opens for writing. *)
Definition targets : list string :=
  map (fun '(_, name) => icon_path name) sizes ++ [ contents_path ].

(** A disk on which nothing stands in the way of a run: the output
    directory is absent or a directory, and no target is a directory. *)
Definition clear (disk : gmap string Node) : Prop :=
  (disk !! output_dir = None \/ disk !! output_dir = Some Dir)
  /\ Forall (fun p => disk !! p <> Some Dir) targets.

(** Two images that agree on mode, size and every pixel. *)
Definition same_image (a b : Image) : Prop :=
  im_mode a = im_mode b /\ im_size a = im_size b
  /\ forall x y, im_px a x y = im_px b x y.

End Script.

(** ** Reading the log *)

Fixpoint draws (l : list Event) : list (Shape * string) :=
  match l with
  | [] => []
  | Draw s fill :: l' => (s, fill) :: draws l'
  | _ :: l' => draws l'
  end.

Fixpoint saves (l : list Event) : list (string * (Z * Z)) :=
  match l with
  | [] => []
  | Save path sz :: l' => (path, sz) :: saves l'
  | _ :: l' => saves l'
  end.

(** The width of an arrow shaft: the vertical side of its rectangle. *)
Definition shaft_width (s : Shape) : Z :=
  match s with
  | Rectangle (_, y0, _, y1) => y1 - y0
  | _ => 0
  end.

(** The base edge of an arrow head joins its first and last point; its
    width is the vertical distance between them. *)
Definition base_width (s : Shape) : Z :=
  match s with
  | Polygon [p0; _; p2] => Z.abs (snd p2 - snd p0)
  | _ => 0
  end.

(** ** Reading the scene *)

Definition least (l : list Z) : Z :=
  match l with
  | [] => 0
  | a :: l' => fold_left Z.min l' a
  end.

Definition greatest (l : list Z) : Z :=
  match l with
  | [] => 0
  | a :: l' => fold_left Z.max l' a
  end.

Definition x_min (s : Shape) : Z := least (xs_of s).
Definition x_max (s : Shape) : Z := greatest (xs_of s).
Definition y_min (s : Shape) : Z := least (ys_of s).
Definition y_max (s : Shape) : Z := greatest (ys_of s).

(** Shape [s] lies within the bounding box of shape [outer]. *)
Definition inside (s outer : Shape) : bool :=
  all_in (x_min outer) (x_max outer) (xs_of s)
  && all_in (y_min outer) (y_max outer) (ys_of s).

(** The shapes drawn with the accent colour inside a pane, in drawing
    order: the bars of that pane. *)
Definition bars_in (pane : Shape) (l : list (Shape * string)) : list Shape :=
  map fst (filter (fun d => String.eqb (snd d) accent_color && inside (fst d) pane) l).

(** The shapes of the script, by the names of its comments. *)
Definition background : Shape :=
  RoundedRectangle (margin, margin, size - margin, size - margin) 120.

Definition left_pane : Shape :=
  RoundedRectangle
    (left_pane_x, left_pane_y, left_pane_x + pane_width, left_pane_y + pane_height) 30.

Definition right_pane : Shape :=
  RoundedRectangle
    (right_pane_x, left_pane_y, right_pane_x + pane_width, left_pane_y + pane_height) 30.

Definition right_arrow_shaft : Shape :=
  Rectangle
    (arrow_start_x, arrow_y - arrow_width / 2, arrow_end_x - 40, arrow_y + arrow_width / 2).

Definition right_arrow_head : Shape := Polygon arrow_head_points.

Definition left_arrow_shaft : Shape :=
  Rectangle
    (arrow_start_x + 40, arrow_y2 - arrow_width / 2, arrow_end_x, arrow_y2 + arrow_width / 2).

Definition left_arrow_head : Shape := Polygon arrow_head_points2.

(** The corner squares of the canvas that hold everything the rounded
    corners of the background leave out: side [margin + 120]. *)
Definition in_corner (x y : Z) : Prop :=
  (x < margin + 120 \/ size - margin - 120 < x)
  /\ (y < margin + 120 \/ size - margin - 120 < y).

(** The log of the drawing statements; the rasteriser has no say in it. *)
Definition draw_log : list Event :=
  events (draw_icon (fun _ _ _ => false) (start ∅)).

(** Everything a run logs, in order. *)
Definition run_log : list Event :=
  draw_log ++ Makedirs output_dir :: icon_events sizes
  ++ [ Write contents_path;
       Print (nl +:+ "Icon set created in " +:+ output_dir +:+ "/");
       Print "Next steps:";
       Print "1. In Xcode, open Assets.xcassets";
       Print "2. Delete the existing AppIcon";
       Print "3. Drag the AppIcon.appiconset folder into Assets.xcassets" ].

(** A name the export loop can use: its path ends in [.png] and lies
    directly in the output directory. *)
Definition plain_name (name : string) : Prop :=
  dirname (icon_path name) = output_dir
  /\ ends_with ".png" (icon_path name) = true.

(** ** A concrete instance of the library, to run the script on *)

(** A rasteriser that fills the bounding box of every shape. *)
Definition box_mask (s : Shape) (x y : Z) : bool := in_bbox s x y.

(** Nearest-neighbour resampling, for every filter. *)
Definition nearest (f : Resampling) (im : Image) (sz : Z * Z) (x y : Z) : Pixel :=
  im_px im (x * fst (im_size im) / fst sz) (y * snd (im_size im) / snd sz).

(** The state the script ends in on an empty disk, with that instance. *)
Definition demo_final : State :=
  mkState (Some (canvas box_mask)) (put_all (all_writes box_mask nearest) ∅) run_log.

(** ** Reading the manifest back *)

(** A JSON reader for the subset [Contents.json] is written in: objects,
    arrays, strings without escapes, and unsigned integers. *)
#[warnings="-register-all"]
Inductive json :=
| JNumber (n : Z)
| JString (s : string)
| JArray (items : list json)
| JObject (members : list (string * json)).

Definition is_ws (c : ascii) : bool :=
  Ascii.eqb c " " || Ascii.eqb c (ascii_of_nat 10)
  || Ascii.eqb c (ascii_of_nat 13) || Ascii.eqb c (ascii_of_nat 9).

Definition is_digit (c : ascii) : bool :=
  let n := Z.of_nat (nat_of_ascii c) in (48 <=? n) && (n <=? 57).

Definition dquote : ascii := ascii_of_nat 34.

Fixpoint skip_ws (s : string) : string :=
  match s with
  | String c s' => if is_ws c then skip_ws s' else s
  | EmptyString => s
  end.

(** The characters up to the closing double quote, and what follows it. *)
Fixpoint read_string (s : string) : option (string * string) :=
  match s with
  | EmptyString => None
  | String c s' =>
      if Ascii.eqb c dquote then Some (EmptyString, s')
      else if Ascii.eqb c "\" then None
      else match read_string s' with
           | Some (body, rest) => Some (String c body, rest)
           | None => None
           end
  end.

(** The decimal digits at the front of [s], accumulated in [acc]. *)
Fixpoint read_digits (s : string) (acc : Z) : Z * string :=
  match s with
  | String c s' =>
      if is_digit c then read_digits s' (10 * acc + (Z.of_nat (nat_of_ascii c) - 48))
      else (acc, s)
  | EmptyString => (acc, s)
  end.

Fixpoint read_value (fuel : nat) (s : string) : option (json * string) :=
  match fuel with
  | O => None
  | S fuel' =>
      match skip_ws s with
      | EmptyString => None
      | String c rest =>
          if Ascii.eqb c dquote then
            match read_string rest with
            | Some (body, rest') => Some (JString body, rest')
            | None => None
            end
          else if Ascii.eqb c "[" then
            match skip_ws rest with
            | String "]" rest' => Some (JArray [], rest')
            | _ =>
                match read_items fuel' rest with
                | Some (items, rest') => Some (JArray items, rest')
                | None => None
                end
            end
          else if Ascii.eqb c "{" then
            match skip_ws rest with
            | String "}" rest' => Some (JObject [], rest')
            | _ =>
                match read_members fuel' rest with
                | Some (members, rest') => Some (JObject members, rest')
                | None => None
                end
            end
          else if is_digit c then
            let '(n, rest') := read_digits (String c rest) 0 in
            Some (JNumber n, rest')
          else None
      end
  end

(** One or more values separated by commas, up to the closing bracket. *)
with read_items (fuel : nat) (s : string) : option (list json * string) :=
  match fuel with
  | O => None
  | S fuel' =>
      match read_value fuel' s with
      | Some (v, rest) =>
          match skip_ws rest with
          | String "]" rest' => Some ([v], rest')
          | String "," rest' =>
              match read_items fuel' rest' with
              | Some (vs, rest'') => Some (v :: vs, rest'')
              | None => None
              end
          | _ => None
          end
      | None => None
      end
  end

(** One or more ["key" : value] pairs separated by commas, up to the
    closing brace. *)
with read_members (fuel : nat) (s : string) : option (list (string * json) * string) :=
  match fuel with
  | O => None
  | S fuel' =>
      match skip_ws s with
      | String c rest =>
          if Ascii.eqb c dquote then
            match read_string rest with
            | Some (key, rest1) =>
                match skip_ws rest1 with
                | String ":" rest2 =>
                    match read_value fuel' rest2 with
                    | Some (v, rest3) =>
                        match skip_ws rest3 with
                        | String "}" rest4 => Some ([(key, v)], rest4)
                        | String "," rest4 =>
                            match read_members fuel' rest4 with
                            | Some (ms, rest5) => Some ((key, v) :: ms, rest5)
                            | None => None
                            end
                        | _ => None
                        end
                    | None => None
                    end
                | _ => None
                end
            | None => None
            end
          else None
      | EmptyString => None
      end
  end.

(** [json.loads] *)
Definition loads (s : string) : option json :=
  match read_value (S (String.length s)) s with
  | Some (v, rest) =>
      match skip_ws rest with
      | EmptyString => Some v
      | _ => None
      end
  | None => None
  end.

Fixpoint member (key : string) (members : list (string * json)) : option json :=
  match members with
  | [] => None
  | (k, v) :: rest => if String.eqb k key then Some v else member key rest
  end.

Definition field (key : string) (j : json) : option json :=
  match j with
  | JObject members => member key members
  | _ => None
  end.

Definition text_field (key : string) (j : json) : option string :=
  match field key j with
  | Some (JString s) => Some s
  | _ => None
  end.

(** One entry of the manifest's [images] array. *)
Record Entry := mkEntry {
  e_filename : string;
  e_idiom : string;
  e_scale : string;
  e_size : string
}.

Definition entry_of (j : json) : option Entry :=
  match text_field "filename" j, text_field "idiom" j,
        text_field "scale" j, text_field "size" j with
  | Some f, Some i, Some sc, Some sz => Some (mkEntry f i sc sz)
  | _, _, _, _ => None
  end.

Fixpoint entries_of (items : list json) : option (list Entry) :=
  match items with
  | [] => Some []
  | j :: rest =>
      match entry_of j, entries_of rest with
      | Some e, Some es => Some (e :: es)
      | _, _ => None
      end
  end.

(** The entries of a manifest text. *)
Definition manifest_entries (text : string) : option (list Entry) :=
  match loads text with
  | Some doc =>
      match field "images" doc with
      | Some (JArray items) => entries_of items
      | _ => None
      end
  | None => None
  end.

(** A non-empty run of digits, read as a number. *)
Definition read_number (s : string) : option (Z * string) :=
  match s with
  | String c _ => if is_digit c then Some (read_digits s 0) else None
  | EmptyString => None
  end.

(** The point size [N] of a size string ["NxN"]. *)
Definition points_of (sz : string) : option Z :=
  match read_number sz with
  | Some (n, String "x" rest) =>
      match read_number rest with
      | Some (m, EmptyString) => if n =? m then Some n else None
      | _ => None
      end
  | _ => None
  end.

(** The factor [k] of a scale string ["kx"]. *)
Definition factor_of (sc : string) : option Z :=
  match read_number sc with
  | Some (k, String "x" EmptyString) => Some k
  | _ => None
  end.


(** ** Reading the disk and the canvas *)

(** The paths a run writes: the output directory and its targets. *)
Definition written : list string := output_dir :: targets.

Definition is_dir (o : option Node) : bool :=
  match o with Some Dir => true | _ => false end.

(** The ink of a colour string on the [RGB] canvas. *)
Definition ink (fill : string) : Pixel := default [] (getcolor fill RGB).

(** The last shape drawn that touches pixel [(x, y)], with its fill. *)
Definition top_shape (mask : Shape -> Z -> Z -> bool) (x y : Z)
  : option (Shape * string) :=
  find (fun d => mask (fst d) x y) (rev (draws draw_log)).

(** Filling a list of shapes one after the other, each with the ink of
    its colour string. *)
Definition paint_all (mask : Shape -> Z -> Z -> bool) (ds : list (Shape * string))
           (im : Image) : Image :=
  fold_left (fun im d => paint mask (fst d) (ink (snd d)) im) ds im.

(** The four colour strings of the script. *)
Definition palette : list string :=
  [ bg_color; pane_color; accent_color; arrow_color ].

(** The band between the panes that holds the two arrows. *)
Definition in_gap (x y : Z) : Prop :=
  arrow_start_x <= x <= arrow_end_x /\ arrow_y - 50 <= y <= arrow_y2 + 50.

(** Inside the bounding box of the left or of the right pane. *)
Definition in_panes (x y : Z) : Prop :=
  (left_pane_x <= x <= left_pane_x + pane_width
   \/ right_pane_x <= x <= right_pane_x + pane_width)
  /\ left_pane_y <= y <= left_pane_y + pane_height.

(** A disk with a file where the output directory should be. *)
Definition disk_with_file : gmap string Node :=
  {[ output_dir := Text "not a directory" ]}.

(** A disk whose output directory holds a directory named
    [Contents.json]. *)
Definition disk_with_subdir : gmap string Node :=
  <[ contents_path := Dir ]> {[ output_dir := Dir ]}.

(** A disk that holds a file the script has nothing to do with. *)
Definition disk_with_notes : gmap string Node :=
  {[ "notes.txt" := Text "keep me" ]}.

(** A table with one name twice, and two states to run the export loop
    on: one whose output directory is empty, one where the path of the
    icon is a directory. *)
Definition small_table : list (Z * string) := [ (16, "a"); (32, "a") ].


Definition loop_start_blocked : State :=
  mkState (Some blank) (<[ icon_path "a" := Dir ]> {[ output_dir := Dir ]}) [].

Definition loop_end : State :=
  mkState (Some blank)
          (put_all (icon_writes nearest blank small_table) {[ output_dir := Dir ]})
          (icon_events small_table).

(** Turns [E : in_bbox s x y = true], for a shape [s] with numerals as
    coordinates, into inequalities on [x] and [y]. *)
Ltac bbox_bounds E :=
  unfold in_bbox in E; cbn in E;
  rewrite ?orb_false_r in E;
  repeat (apply andb_prop in E; destruct E as [E ?]);
  repeat match goal with
         | H : (_ || _)%bool = true |- _ => apply orb_prop in H; destruct H
         end;
  repeat match goal with
         | H : (_ <=? _) = true |- _ => apply Z.leb_le in H
         end.

(** Closes a goal where [E] puts a pixel inside the bounding box of a
    pane, a bar or an arrow and [Hcorner] puts it in a corner square. *)
Ltac outside_bbox E Hcorner :=
  unfold in_bbox in E; cbn in E;
  rewrite ?orb_false_r in E;
  repeat (apply andb_prop in E; destruct E as [E ?]);
  repeat match goal with
         | H : (_ || _)%bool = true |- _ => apply orb_prop in H; destruct H
         end;
  repeat match goal with
         | H : (_ <=? _) = true |- _ => apply Z.leb_le in H
         end;
  unfold in_corner, size, margin in Hcorner; lia.

(** * Properties *)

Section Properties.

Variable mask : Shape -> Z -> Z -> bool.
Variable resample : Resampling -> Image -> Z * Z -> Z -> Z -> Pixel.

(** ** The drawing statements *)

(** Drawing never fails and leaves the disk alone. *)
Lemma draw_icon_run (disk : gmap string Node) :
  draw_icon mask (start disk)
  = Ok (tt, mkState (Some (canvas mask)) disk draw_log).
Proof. reflexivity. Qed.

Lemma canvas_size : im_size (canvas mask) = (size, size).
Proof. reflexivity. Qed.

(** ** Writing to the disk *)

Lemma put_all_app (l1 l2 : list (string * Node)) (m : gmap string Node) :
  put_all (l1 ++ l2) m = put_all l2 (put_all l1 m).
Proof.
  revert m. induction l1 as [|[k v] l1 IH]; intros m; simpl; [done|].
  apply IH.
Qed.

(** Writing a list of nodes overlays the disk with them. *)
Lemma put_all_union (kvs : list (string * Node)) (m : gmap string Node) :
  put_all kvs m = list_to_map (reverse kvs) ∪ m.
Proof.
  revert m. induction kvs as [|[k v] kvs IH]; intros m; simpl.
  - by rewrite (left_id_L ∅ (∪)).
  - rewrite IH, reverse_cons, list_to_map_app. simpl.
    rewrite <- (assoc_L (∪)). f_equal.
    rewrite insert_empty. apply insert_union_singleton_l.
Qed.

(** Writing the same nodes a second time changes nothing. *)
Lemma put_all_twice (kvs : list (string * Node)) (m : gmap string Node) :
  put_all kvs (put_all kvs m) = put_all kvs m.
Proof.
  rewrite !put_all_union, (assoc_L (∪)). f_equal.
  apply (idemp_L (∪)).
Qed.

Lemma put_all_lookup (kvs : list (string * Node)) (m : gmap string Node)
      (k : string) (v : Node) :
  (list_to_map (reverse kvs) : gmap string Node) !! k = Some v ->
  put_all kvs m !! k = Some v.
Proof. intros H. rewrite put_all_union. by apply lookup_union_Some_l. Qed.

Lemma put_all_lookup_other (kvs : list (string * Node)) (m : gmap string Node)
      (k : string) :
  (list_to_map (reverse kvs) : gmap string Node) !! k = None ->
  put_all kvs m !! k = m !! k.
Proof. intros H. rewrite put_all_union. by apply lookup_union_r. Qed.

(** ** The export loop *)

Lemma icon_path_not_output_dir (name : string) :
  plain_name name -> icon_path name <> output_dir.
Proof. intros [Hd _] E. rewrite E in Hd. discriminate Hd. Qed.

(** One turn of the loop, lines 120-123: it fails only when the path of
    the icon is a directory. *)
Lemma export_step (pixel_size : Z) (name : string) (st : State) (im : Image) :
  plain_name name ->
  img st = Some im ->
  fs st !! output_dir = Some Dir ->
  (resized <- resize resample (pixel_size, pixel_size) LANCZOS ;;
   save resized (output_dir +:+ "/icon_" +:+ name +:+ ".png") ;;;
   print ("Created icon_" +:+ name +:+ ".png (" +:+ str pixel_size +:+ "x"
          +:+ str pixel_size +:+ ")")) st
  = match fs st !! icon_path name with
    | Some Dir => Raise IsADirectoryError
    | _ =>
        Ok (tt, mkState (Some im)
                  (<[icon_path name := Png (icon_of resample im pixel_size)]> (fs st))
                  (log st ++ [ Save (icon_path name) (pixel_size, pixel_size);
                               Print (created pixel_size name) ]))
    end.
Proof.
  intros [Hd He] Him Hout.
  change (output_dir +:+ "/icon_" +:+ name +:+ ".png") with (icon_path name).
  unfold bind, resize, save, open_w, print, emit. rewrite Him, He, Hd, Hout.
  change (String.eqb output_dir "") with false. cbv iota.
  destruct (fs st !! icon_path name) as [[]|]; try reflexivity;
    cbn [img fs log]; rewrite Him, <- app_assoc; reflexivity.
Qed.

(** The loop of lines 120-123 over any list of plain names: when it
    returns, it has written one icon per entry, in order. *)
Lemma export_loop (l : list (Z * string)) :
  Forall (fun e => plain_name (snd e)) l ->
  forall (st st' : State) (im : Image),
    img st = Some im ->
    fs st !! output_dir = Some Dir ->
    for_ l (fun '(pixel_size, name) =>
      resized <- resize resample (pixel_size, pixel_size) LANCZOS ;;
      save resized (output_dir +:+ "/icon_" +:+ name +:+ ".png") ;;;
      print ("Created icon_" +:+ name +:+ ".png (" +:+ str pixel_size +:+ "x"
             +:+ str pixel_size +:+ ")")) st = Ok (tt, st') ->
    st' = mkState (Some im) (put_all (icon_writes resample im l) (fs st))
                  (log st ++ icon_events l).
Proof.
  induction 1 as [|[pixel_size name] l Hname _ IH]; intros st st' im Him Hout Hrun.
  - cbn in Hrun. injection Hrun as <-. destruct st; cbn in *.
    rewrite app_nil_r. congruence.
  - cbn [snd] in Hname. cbn [for_] in Hrun. unfold bind at 1 in Hrun.
    rewrite (export_step _ _ _ im Hname Him Hout) in Hrun.
    cbn [icon_writes map put_all icon_events flat_map].
    fold (icon_writes resample im l). fold (icon_events l).
    rewrite app_assoc. revert Hrun.
    destruct (fs st !! icon_path name) as [[]|]; intros Hrun;
      try discriminate Hrun;
      (apply IH with (im := im) in Hrun;
       [ exact Hrun | reflexivity
       | cbn [fs]; rewrite lookup_insert_ne;
         [ exact Hout | by apply icon_path_not_output_dir ] ]).
Qed.

(** The loop does return when no icon path is a directory. *)
Lemma export_loop_returns (l : list (Z * string)) :
  Forall (fun e => plain_name (snd e)) l ->
  forall (st : State) (im : Image),
    img st = Some im ->
    fs st !! output_dir = Some Dir ->
    Forall (fun e => fs st !! icon_path (snd e) <> Some Dir) l ->
    exists st',
      for_ l (fun '(pixel_size, name) =>
        resized <- resize resample (pixel_size, pixel_size) LANCZOS ;;
        save resized (output_dir +:+ "/icon_" +:+ name +:+ ".png") ;;;
        print ("Created icon_" +:+ name +:+ ".png (" +:+ str pixel_size +:+ "x"
               +:+ str pixel_size +:+ ")")) st = Ok (tt, st').
Proof.
  induction 1 as [|[pixel_size name] l Hname _ IH]; intros st im Him Hout Hfree.
  - eexists. reflexivity.
  - cbn [snd] in Hname. cbn [for_]. unfold bind at 1.
    rewrite (export_step _ _ _ im Hname Him Hout).
    apply Forall_cons in Hfree as [Hhere Hrest]. cbn [snd] in Hhere.
    assert (Hnext : forall v,
               Forall (fun e => <[icon_path name := Png v]> (fs st)
                                  !! icon_path (snd e) <> Some Dir) l).
    { intros v. eapply Forall_impl; [exact Hrest|]. intros e He.
      destruct (decide (icon_path name = icon_path (snd e))) as [->|Hne].
      - rewrite lookup_insert_eq. discriminate.
      - by rewrite lookup_insert_ne. }
    destruct (fs st !! icon_path name) as [[]|]; try congruence;
      (eapply (IH _ im);
       [ reflexivity
       | cbn [fs]; rewrite lookup_insert_ne;
         [ exact Hout | by apply icon_path_not_output_dir ]
       | cbn [fs]; apply Hnext ]).
Qed.

Lemma sizes_plain : Forall (fun e => plain_name (snd e)) sizes.
Proof. repeat constructor. Qed.

(** ** The whole script *)

Lemma makedirs_output_dir (st : State) :
  makedirs output_dir st
  = match fs st !! output_dir with
    | None | Some Dir =>
        Ok (tt, mkState (img st) (<[output_dir := Dir]> (fs st))
                        (log st ++ [Makedirs output_dir]))
    | Some _ => Raise FileExistsError
    end.
Proof.
  unfold makedirs. destruct (fs st !! output_dir) as [[]|] eqn:E; try reflexivity.
  by rewrite (insert_id _ _ _ E).
Qed.

Lemma write_contents_step (st : State) :
  fs st !! output_dir = Some Dir ->
  write_contents st
  = match fs st !! contents_path with
    | Some Dir => Raise IsADirectoryError
    | _ =>
        Ok (tt, mkState (img st) (<[contents_path := Text contents_json]> (fs st))
                        (log st ++ [Write contents_path]))
    end.
Proof.
  intros Hout. unfold write_contents, write_text, open_w.
  change (output_dir +:+ "/Contents.json") with contents_path.
  change (dirname contents_path) with output_dir. rewrite Hout.
  change (String.eqb output_dir "") with false. cbv iota.
  destruct (fs st !! contents_path) as [[]|]; reflexivity.
Qed.

Lemma Ok_inv {A} (a b : A) (s s' : State) : Ok (a, s) = Ok (b, s') -> s = s'.
Proof. intros H. injection H. auto. Qed.

Lemma bind_inv {A B} (m : M A) (k : A -> M B) (st st' : State) (b : B) :
  bind m k st = Ok (b, st') ->
  exists a st1, m st = Ok (a, st1) /\ k a st1 = Ok (b, st').
Proof.
  unfold bind. destruct (m st) as [[a st1]|e]; intros H;
    [ exists a, st1; split; [ reflexivity | exact H ] | discriminate H ].
Qed.

Lemma makedirs_inv (st st' : State) :
  makedirs output_dir st = Ok (tt, st') ->
  st' = mkState (img st) (<[output_dir := Dir]> (fs st))
                (log st ++ [Makedirs output_dir]).
Proof.
  rewrite makedirs_output_dir.
  destruct (fs st !! output_dir) as [[]|]; intros H;
    first [ discriminate H | injection H as <-; reflexivity ].
Qed.

Lemma write_contents_inv (st st' : State) :
  fs st !! output_dir = Some Dir ->
  write_contents st = Ok (tt, st') ->
  st' = mkState (img st) (<[contents_path := Text contents_json]> (fs st))
                (log st ++ [Write contents_path]).
Proof.
  intros Hout. rewrite (write_contents_step st Hout).
  destruct (fs st !! contents_path) as [[]|]; intros H;
    first [ discriminate H | injection H as <-; reflexivity ].
Qed.

Lemma print_next_steps_run (st : State) :
  print_next_steps st
  = Ok (tt, mkState (img st) (fs st)
              (log st ++ [ Print (nl +:+ "Icon set created in " +:+ output_dir +:+ "/");
                           Print "Next steps:";
                           Print "1. In Xcode, open Assets.xcassets";
                           Print "2. Delete the existing AppIcon";
                           Print "3. Drag the AppIcon.appiconset folder into Assets.xcassets" ])).
Proof.
  unfold print_next_steps, bind, print, emit. cbn [img fs log].
  rewrite <- !app_assoc. reflexivity.
Qed.

(** What a run that returns has done: the canvas is the drawn scene,
    the disk has received [all_writes], and the log is [run_log]. *)
Lemma run_inv (disk : gmap string Node) (st : State) :
  create_app_icon mask resample (start disk) = Ok (tt, st) ->
  st = mkState (Some (canvas mask)) (put_all (all_writes mask resample) disk) run_log.
Proof.
  intros H. unfold create_app_icon in H.
  apply bind_inv in H as ([] & s1 & Hdraw & H).
  rewrite draw_icon_run in Hdraw. apply Ok_inv in Hdraw. subst s1.
  apply bind_inv in H as ([] & s2 & Hexport & H).
  unfold export_icons in Hexport.
  apply bind_inv in Hexport as ([] & s1' & Hmk & Hloop).
  apply makedirs_inv in Hmk. cbn [img fs log] in Hmk. subst s1'.
  apply export_loop with (im := canvas mask) in Hloop;
    [ | exact sizes_plain | reflexivity | apply lookup_insert_eq ].
  cbn [img fs log] in Hloop. subst s2.
  apply bind_inv in H as ([] & s3 & Hwrite & H).
  apply write_contents_inv in Hwrite;
    [ | cbn [fs]; rewrite put_all_lookup_other;
        [ apply lookup_insert_eq | vm_compute; reflexivity ] ].
  cbn [img fs log] in Hwrite. subst s3.
  rewrite print_next_steps_run in H. cbn [img fs log] in H.
  apply Ok_inv in H. subst st.
  match goal with
  | |- mkState _ _ ?l = _ =>
      assert (Hlog : l = run_log) by (vm_compute; reflexivity); rewrite Hlog
  end.
  unfold all_writes. cbn [put_all]. rewrite put_all_app. cbn [put_all]. reflexivity.
Qed.

(** On a clear disk the run returns. *)
Lemma run_returns (disk : gmap string Node) :
  clear disk ->
  exists st, create_app_icon mask resample (start disk) = Ok (tt, st).
Proof.
  intros [Hout Hfree].
  unfold targets, sizes in Hfree. cbn [map app] in Hfree.
  repeat match goal with
         | H : Forall _ (_ :: _) |- _ => apply Forall_cons in H as [? H]
         end.
  assert (Hicons : Forall (fun e => <[output_dir := Dir]> disk
                                      !! icon_path (snd e) <> Some Dir) sizes).
  { unfold sizes. repeat constructor; cbn [snd];
      (rewrite lookup_insert_ne;
       [ assumption
       | intros E; symmetry in E; revert E;
         apply icon_path_not_output_dir; split; reflexivity ]). }
  assert (Hcontents : disk !! contents_path <> Some Dir) by assumption.
  destruct (export_loop_returns sizes sizes_plain
              (mkState (Some (canvas mask)) (<[output_dir := Dir]> disk)
                       (draw_log ++ [Makedirs output_dir]))
              (canvas mask) eq_refl (lookup_insert_eq _ _ _) Hicons)
    as [st1 Hloop].
  pose proof Hloop as Hst1.
  apply export_loop with (im := canvas mask) in Hst1;
    [ | exact sizes_plain | reflexivity | apply lookup_insert_eq ].
  cbn [fs img log] in Hst1.
  unfold create_app_icon. unfold bind at 1. rewrite draw_icon_run.
  unfold bind at 1. unfold export_icons. unfold bind at 1.
  rewrite makedirs_output_dir. cbn [fs img log].
  assert (Hmk : match disk !! output_dir with
                | Some (Png _) | Some (Text _) => Raise FileExistsError
                | _ => Ok (tt, mkState (Some (canvas mask)) (<[output_dir := Dir]> disk)
                                       (draw_log ++ [Makedirs output_dir]))
                end
                = Ok (tt, mkState (Some (canvas mask)) (<[output_dir := Dir]> disk)
                                  (draw_log ++ [Makedirs output_dir]))).
  { destruct Hout as [-> | ->]; reflexivity. }
  rewrite Hmk, Hloop. subst st1.
  unfold bind at 1. rewrite write_contents_step;
    [ | cbn [fs]; rewrite put_all_lookup_other;
        [ apply lookup_insert_eq | vm_compute; reflexivity ] ].
  cbn [fs img log].
  rewrite put_all_lookup_other by (vm_compute; reflexivity).
  rewrite lookup_insert_ne by discriminate.
  destruct (disk !! contents_path) as [[]|]; try congruence; eexists; reflexivity.
Qed.

(** ** The scene *)

Lemma forallb_Forall {A} (f : A -> bool) (P : A -> Prop) (l : list A) :
  (forall a, f a = true -> P a) -> forallb f l = true -> Forall P l.
Proof.
  intros HfP. induction l as [|a l IH]; cbn; intros H; constructor;
    apply andb_prop in H as [Ha Hl]; auto.
Qed.

Lemma all_in_Forall (lo hi : Z) (l : list Z) :
  all_in lo hi l = true -> Forall (fun c => lo <= c <= hi) l.
Proof.
  apply forallb_Forall. intros c H. apply andb_prop in H as [H1 H2]. lia.
Qed.

(** The shapes drawn, in order: the background, the two panes, five
    bars on the left, three on the right, and the two arrows. *)
Lemma scene :
  draws draw_log
  = ([ (background, bg_color); (left_pane, pane_color); (right_pane, pane_color) ]
    ++ map (fun i =>
              let y := file_y_start + (i * file_spacing) in
              (RoundedRectangle
                 (left_pane_x + 30, y, left_pane_x + pane_width - 30, y + file_height) 8,
               accent_color)) (range 5)
    ++ map (fun i =>
              let y := file_y_start + (i * file_spacing) in
              (RoundedRectangle
                 (right_pane_x + 30, y, right_pane_x + pane_width - 30, y + file_height) 8,
               accent_color)) (range 3)
    ++ [ (right_arrow_shaft, arrow_color); (right_arrow_head, arrow_color);
         (left_arrow_shaft, arrow_color); (left_arrow_head, arrow_color) ])%list.
Proof. reflexivity. Qed.

(** C5. Every coordinate of each of the 15 shapes the script draws (the
    background, the two panes, the 8 bars, the two shafts and the two
    heads) lies between 0 and the canvas side 1024. *)
Theorem c5_shapes_within_canvas (disk : gmap string Node) :
  exists st,
    draw_icon mask (start disk) = Ok (tt, st)
    /\ length (draws (log st)) = 15%nat
    /\ length (bars_in left_pane (draws (log st))) = 5%nat
    /\ length (bars_in right_pane (draws (log st))) = 3%nat
    /\ Forall (fun d => Forall (fun c => 0 <= c <= 1024) (coords (fst d)))
              (draws (log st)).
Proof.
  eexists. split; [ apply draw_icon_run | ]. cbn [log].
  repeat split; try reflexivity.
  apply (forallb_Forall (fun d => all_in 0 1024 (coords (fst d)))).
  - intros d. apply all_in_Forall.
  - reflexivity.
Qed.

(** C6. For both arrows the base of the head (100) is wider than the
    shaft (24, that is 25 pixel rows), the head of the right-pointing
    arrow ends left of the right pane, and the head of the left-pointing
    arrow starts right of the left pane. *)
Theorem c6_arrow_heads (disk : gmap string Node) :
  exists st pre,
    draw_icon mask (start disk) = Ok (tt, st)
    /\ draws (log st)
       = (pre ++ [ (right_arrow_shaft, arrow_color); (right_arrow_head, arrow_color);
                   (left_arrow_shaft, arrow_color); (left_arrow_head, arrow_color) ])%list
    /\ In (left_pane, pane_color) pre /\ In (right_pane, pane_color) pre
    /\ arrow_head_points = [ (494, 462); (534, 512); (494, 562) ]
    /\ arrow_head_points2 = [ (530, 562); (490, 612); (530, 662) ]
    /\ base_width right_arrow_head = 100 /\ shaft_width right_arrow_shaft = 24
    /\ base_width left_arrow_head = 100 /\ shaft_width left_arrow_shaft = 24
    /\ shaft_width right_arrow_shaft + 1 < base_width right_arrow_head
    /\ shaft_width left_arrow_shaft + 1 < base_width left_arrow_head
    /\ x_min right_pane = 554 /\ x_max left_pane = 470
    /\ Forall (fun x => x < x_min right_pane) (xs_of right_arrow_head)
    /\ Forall (fun x => x_max left_pane < x) (xs_of left_arrow_head).
Proof.
  eexists. eexists. split; [ apply draw_icon_run | ]. cbn [log].
  split; [ rewrite scene, !app_assoc; reflexivity | ].
  split; [ cbn; tauto | ]. split; [ cbn; tauto | ].
  repeat split; try reflexivity; repeat constructor.
Qed.

(** C7. Each of the ten export sizes is at most the side of the canvas,
    1024, so no icon is an enlargement. *)
Theorem c7_no_upsampling (disk : gmap string Node) :
  exists st im,
    draw_icon mask (start disk) = Ok (tt, st)
    /\ img st = Some im
    /\ im_size im = (size, size) /\ size = 1024
    /\ length sizes = 10%nat
    /\ Forall (fun e => 0 < fst e <= fst (im_size im)
                        /\ fst e <= snd (im_size im)) sizes
    /\ Forall (fun sv => fst (snd sv) <= fst (im_size im)
                         /\ snd (snd sv) <= snd (im_size im)) (saves run_log).
Proof.
  exists (mkState (Some (canvas mask)) disk draw_log), (canvas mask).
  split; [ apply draw_icon_run | ]. cbn [img].
  do 4 (split; [ reflexivity | ]).
  rewrite canvas_size. unfold size. cbn [fst snd].
  split; [ unfold sizes; repeat apply Forall_cons_2; try apply Forall_nil_2;
           cbn; lia
         | apply (forallb_Forall
                    (fun sv => (fst (snd sv) <=? 1024) && (snd (snd sv) <=? 1024)));
           [ intros sv H; apply andb_prop in H as [H1 H2]; cbn; lia
           | reflexivity ] ].
Qed.

(** C8. The left pane holds five bars and the right pane three; in both
    panes the top of the i-th bar is [file_y_start + i * file_spacing],
    that is 250 + 70 i. *)
Theorem c8_bars (disk : gmap string Node) :
  exists st,
    draw_icon mask (start disk) = Ok (tt, st)
    /\ (length (bars_in right_pane (draws (log st)))
        < length (bars_in left_pane (draws (log st))))%nat
    /\ map y_min (bars_in left_pane (draws (log st)))
       = map (fun i => file_y_start + i * file_spacing) (range 5)
    /\ map y_min (bars_in right_pane (draws (log st)))
       = map (fun i => file_y_start + i * file_spacing) (range 3)
    /\ (forall i y, nth_error (map y_min (bars_in left_pane (draws (log st)))) i = Some y ->
                    y = 250 + Z.of_nat i * 70)
    /\ (forall i y, nth_error (map y_min (bars_in right_pane (draws (log st)))) i = Some y ->
                    y = 250 + Z.of_nat i * 70).
Proof.
  eexists. split; [ apply draw_icon_run | ]. cbn [log].
  split; [ vm_compute; lia | ].
  split; [ reflexivity | ]. split; [ reflexivity | ].
  assert (Hl : map y_min (bars_in left_pane (draws draw_log))
               = [250; 320; 390; 460; 530]) by (vm_compute; reflexivity).
  assert (Hr : map y_min (bars_in right_pane (draws draw_log))
               = [250; 320; 390]) by (vm_compute; reflexivity).
  rewrite Hl, Hr.
  split; intros i y H;
    do 6 (destruct i as [|i];
          [ cbn [nth_error] in H; first [ discriminate H | injection H as <- ];
            vm_compute; reflexivity | ]);
    destruct i; discriminate H.
Qed.

(** ** The exported files *)

(** C1. A run that returns has saved exactly ten images, in the order
    of [sizes]: 16, 32, 32, 64, 128, 256, 256, 512, 512, 1024 pixels for
    the roles 16x16, 16x16@2x, 32x32, 32x32@2x, 128x128, 128x128@2x,
    256x256, 256x256@2x, 512x512, 512x512@2x; each is the PNG file
    [icon_<role>.png] of the output directory, and each is square with
    the side its entry gives. *)
Theorem c1_exported_files (disk : gmap string Node) (st : State) :
  create_app_icon mask resample (start disk) = Ok (tt, st) ->
  sizes = [ (16, "16x16"); (32, "16x16@2x"); (32, "32x32"); (64, "32x32@2x");
            (128, "128x128"); (256, "128x128@2x"); (256, "256x256");
            (512, "256x256@2x"); (512, "512x512"); (1024, "512x512@2x") ]
  /\ saves (log st)
     = map (fun e => ("AppIcon.appiconset/icon_" +:+ snd e +:+ ".png",
                      (fst e, fst e))) sizes
  /\ length (saves (log st)) = 10%nat
  /\ Forall (fun e =>
               exists im,
                 fs st !! ("AppIcon.appiconset/icon_" +:+ snd e +:+ ".png")
                 = Some (Png im)
                 /\ fst (im_size im) = fst e /\ snd (im_size im) = fst e) sizes.
Proof.
  intros Hrun. apply run_inv in Hrun. subst st. cbn [log fs].
  split; [ reflexivity | ]. split; [ reflexivity | ]. split; [ reflexivity | ].
  unfold sizes. repeat apply Forall_cons_2; try apply Forall_nil_2; cbn [fst snd];
    (eexists (icon_of resample (canvas mask) _);
     split; [ apply put_all_lookup; vm_compute; reflexivity | split; reflexivity ]).
Qed.

(** C2. After a run that returns, [Contents.json] reads back as ten
    entries; their filenames are, in order, the ten [icon_<role>.png]
    the run saved; every idiom is [mac]; and the file an entry names is
    N by N pixels where the entry says size NxN at scale 1x, and 2N by
    2N where it says scale 2x. *)
Theorem c2_manifest_consistent (disk : gmap string Node) (st : State) :
  create_app_icon mask resample (start disk) = Ok (tt, st) ->
  exists text entries,
    fs st !! "AppIcon.appiconset/Contents.json" = Some (Text text)
    /\ manifest_entries text = Some entries
    /\ length entries = 10%nat
    /\ map e_filename entries = map (fun e => "icon_" +:+ snd e +:+ ".png") sizes
    /\ Forall (fun e => e_idiom e = "mac") entries
    /\ Forall (fun e =>
                 exists n k im,
                   points_of (e_size e) = Some n
                   /\ factor_of (e_scale e) = Some k
                   /\ (e_scale e = "1x" /\ k = 1 \/ e_scale e = "2x" /\ k = 2)
                   /\ fs st !! ("AppIcon.appiconset/" +:+ e_filename e)
                      = Some (Png im)
                   /\ im_size im = (k * n, k * n)) entries.
Proof.
  intros Hrun. apply run_inv in Hrun. subst st. cbn [log fs].
  exists contents_json. eexists.
  split; [ apply put_all_lookup; vm_compute; reflexivity | ].
  split; [ vm_compute; reflexivity | ].
  split; [ reflexivity | ]. split; [ reflexivity | ].
  split; [ repeat constructor | ].
  repeat apply Forall_cons_2; try apply Forall_nil_2; cbn [e_size e_scale e_filename];
    (eexists _, _, (icon_of resample (canvas mask) _);
     split; [ vm_compute; reflexivity | ];
     split; [ vm_compute; reflexivity | ];
     split; [ (left; split; reflexivity) || (right; split; reflexivity) | ];
     split; [ apply put_all_lookup; vm_compute; reflexivity | reflexivity ]).
Qed.

(** ** Rendering as a function *)

(** C3, as the script has it. The script defines one function,
    [create_app_icon], which takes no argument. Its drawing statements
    always return, give the same 1024 by 1024 canvas and the same log
    whatever disk the run starts on, leave that disk as it was and log
    nothing but [Draw]s; every other effect of a run comes after them. *)
Theorem c3_rendering_fixed (disk1 disk2 : gmap string Node) :
  module_defs = [ ("create_app_icon", []) ]
  /\ exists im lg io,
       draw_icon mask (start disk1) = Ok (tt, mkState (Some im) disk1 lg)
       /\ draw_icon mask (start disk2) = Ok (tt, mkState (Some im) disk2 lg)
       /\ im_size im = (1024, 1024)
       /\ forallb is_draw lg = true
       /\ forallb (fun e => negb (is_draw e)) io = true
       /\ forall st, create_app_icon mask resample (start disk1) = Ok (tt, st) ->
                     img st = Some im /\ log st = (lg ++ io)%list.
Proof.
  split; [ reflexivity | ].
  exists (canvas mask), draw_log. eexists.
  split; [ apply draw_icon_run | ]. split; [ apply draw_icon_run | ].
  split; [ reflexivity | ]. split; [ reflexivity | ].
  split; [ | intros st Hrun; apply run_inv in Hrun; subst st; cbn [img log];
             split; [ reflexivity | unfold run_log; reflexivity ] ].
  vm_compute. reflexivity.
Qed.

(** ** Determinism and idempotence *)

Lemma put_all_lookup_not_dir (kvs : list (string * Node)) (m : gmap string Node)
      (k : string) (v : Node) :
  (list_to_map (reverse kvs) : gmap string Node) !! k = Some v ->
  v <> Dir ->
  put_all kvs m !! k <> Some Dir.
Proof. intros H Hv. rewrite (put_all_lookup _ _ _ _ H). congruence. Qed.

(** After a run, nothing stands in the way of the next one. *)
Lemma clear_after_run (disk : gmap string Node) :
  clear (put_all (all_writes mask resample) disk).
Proof.
  split.
  - right. apply put_all_lookup. vm_compute. reflexivity.
  - unfold targets, sizes. cbn [map app].
    repeat apply Forall_cons_2; try apply Forall_nil_2;
      (eapply put_all_lookup_not_dir; [ vm_compute; reflexivity | discriminate ]).
Qed.

(** C4. Rendering gives the same image on every run, pixel for pixel;
    and a second run on the disk the first one left returns too and
    leaves the same disk: the same files with the same contents, the
    manifest included. *)
Theorem c4_deterministic_idempotent (disk : gmap string Node) (st1 : State) :
  create_app_icon mask resample (start disk) = Ok (tt, st1) ->
  (forall disk' st', draw_icon mask (start disk') = Ok (tt, st') ->
     exists im, img st' = Some im /\ img st1 = Some im
                /\ forall x y, getpixel im x y = getpixel (canvas mask) x y)
  /\ (forall st1', create_app_icon mask resample (start disk) = Ok (tt, st1') ->
        st1' = st1)
  /\ exists st2,
       create_app_icon mask resample (start (fs st1)) = Ok (tt, st2)
       /\ fs st2 = fs st1
       /\ dom (fs st2) = dom (fs st1)
       /\ fs st2 !! contents_path = Some (Text contents_json)
       /\ fs st1 !! contents_path = Some (Text contents_json).
Proof.
  intros Hrun. pose proof (run_inv _ _ Hrun) as ->. cbn [img fs].
  split; [ | split ].
  - intros disk' st' Hdraw. rewrite draw_icon_run in Hdraw.
    apply Ok_inv in Hdraw. subst st'. exists (canvas mask). auto.
  - intros st1' Hrun'. apply run_inv in Hrun'. exact Hrun'.
  - destruct (run_returns _ (clear_after_run disk)) as [st2 Hrun2].
    exists st2. split; [ exact Hrun2 | ].
    apply run_inv in Hrun2. subst st2. cbn [fs].
    rewrite put_all_twice.
    split; [ reflexivity | ]. split; [ reflexivity | ].
    split; apply put_all_lookup; vm_compute; reflexivity.
Qed.

(** ** The background overlay *)

(** C9. The overlay of lines 17-23 is filled with [#2C3E50], the colour
    the canvas was created with, so the canvas after it is the canvas
    before it, pixel for pixel; and the script without that statement
    draws the same final image. *)
Theorem c9_overlay_changes_nothing (disk : gmap string Node) :
  exists st0 st1 im0 im1,
    new_canvas (start disk) = Ok (tt, st0)
    /\ draw_background mask st0 = Ok (tt, st1)
    /\ img st0 = Some im0 /\ img st1 = Some im1
    /\ log st1 = [ Draw background "#2C3E50" ]
    /\ (forall x y, im_px im0 x y = [44; 62; 80])
    /\ same_image im1 im0
    /\ exists st st' im im',
         draw_icon mask (start disk) = Ok (tt, st)
         /\ draw_icon_without_overlay mask (start disk) = Ok (tt, st')
         /\ img st = Some im /\ img st' = Some im'
         /\ same_image im im'
         /\ forall x y, getpixel im x y = getpixel im' x y.
Proof.
  pose (im0 := mkImage RGB (size, size) (fun _ _ => [44; 62; 80])).
  exists (mkState (Some im0) disk []).
  exists (mkState (Some (paint mask background [44; 62; 80] im0)) disk
                  [ Draw background "#2C3E50" ]).
  exists im0, (paint mask background [44; 62; 80] im0).
  split; [ reflexivity | ]. split; [ reflexivity | ].
  split; [ reflexivity | ]. split; [ reflexivity | ].
  split; [ reflexivity | ]. split; [ reflexivity | ].
  split.
  { split; [ reflexivity | ]. split; [ reflexivity | ].
    intros x y. unfold paint, im0. cbn [im_px].
    destruct (mask background x y); reflexivity. }
  assert (Hsame : same_image (canvas mask) (canvas_without_overlay mask)).
  { split; [ reflexivity | ]. split; [ reflexivity | ].
    intros x y. vm_compute.
    repeat (destruct (mask _ x y); try reflexivity). }
  exists (mkState (Some (canvas mask)) disk draw_log).
  exists (mkState (Some (canvas_without_overlay mask)) disk (tl draw_log)).
  exists (canvas mask), (canvas_without_overlay mask).
  split; [ apply draw_icon_run | ]. split; [ reflexivity | ].
  split; [ reflexivity | ]. split; [ reflexivity | ].
  split; [ exact Hsame | ].
  intros x y. unfold getpixel, in_image.
  destruct Hsame as (_ & Hsize & Hpx). rewrite Hsize, Hpx. reflexivity.
Qed.

(** ** Opacity *)

(** X13. The canvas is created in mode [RGB], which has no alpha band;
    every icon a run saves is in that mode too, so each of its pixels
    is opaque. On the canvas, where the rasteriser keeps every shape
    within its bounding box, the pixels of the corner squares have the
    background colour [#2C3E50]. The colours of the resized icons are
    what the filter computes and are not stated here. *)
Theorem saved_icons_opaque (disk : gmap string Node) (st : State) :
  create_app_icon mask resample (start disk) = Ok (tt, st) ->
  exists im,
    img st = Some im
    /\ im_mode im = RGB /\ has_alpha (im_mode im) = false
    /\ (forall x y, opacity im x y = 255)
    /\ Forall (fun e =>
                 exists icon,
                   fs st !! ("AppIcon.appiconset/icon_" +:+ snd e +:+ ".png")
                   = Some (Png icon)
                   /\ im_mode icon = RGB /\ has_alpha (im_mode icon) = false
                   /\ forall x y, opacity icon x y = 255) sizes
    /\ getcolor bg_color (im_mode im) = Some [44; 62; 80]
    /\ ((forall s x y, mask s x y = true -> in_bbox s x y = true) ->
        forall x y, in_corner x y ->
                    im_px im x y = [44; 62; 80] /\ opacity im x y = 255).
Proof.
  intros Hrun. apply run_inv in Hrun. subst st. cbn [img fs].
  exists (canvas mask).
  split; [ reflexivity | ]. split; [ reflexivity | ]. split; [ reflexivity | ].
  split; [ intros x y; reflexivity | ].
  split.
  { unfold sizes.
    repeat apply Forall_cons_2; try apply Forall_nil_2; cbn [fst snd];
      (eexists (icon_of resample (canvas mask) _);
       split; [ apply put_all_lookup; vm_compute; reflexivity | ];
       split; [ reflexivity | ]; split; [ reflexivity | ];
       intros x y; reflexivity). }
  split; [ reflexivity | ].
  intros Hbbox x y Hcorner. split; [ | reflexivity ].
  vm_compute.
  repeat match goal with
         | |- context [mask ?s x y] =>
             let E := fresh "E" in
             destruct (mask s x y) eqn:E;
             [ first [ reflexivity
                     | exfalso; apply Hbbox in E; outside_bbox E Hcorner ]
             | ]
         end.
  reflexivity.
Qed.

(** ** A run on the empty disk *)

(** On an empty disk the script returns, in the state [run_inv] describes,
    whatever the rasteriser and the filter. *)
Lemma run_on_empty_disk :
  create_app_icon mask resample (start ∅)
  = Ok (tt, mkState (Some (canvas mask)) (put_all (all_writes mask resample) ∅) run_log).
Proof. vm_compute. reflexivity. Qed.

End Properties.

(** * The script on an empty disk *)

(** C3, as the specification has it, fails: the script defines no
    function [render_icon], whatever its parameters; the only function
    it defines takes none, so no canvas size can be passed in, and the
    canvas is 1024 by 1024, never for instance 512 by 512. *)
Lemma c3_no_render_icon :
  ~ (exists params, In ("render_icon", params) module_defs)
  /\ (forall name params, In (name, params) module_defs -> params = [])
  /\ (forall mask, im_size (canvas mask) <> (512, 512)).
Proof.
  split; [ | split ].
  - intros [params [H | []]]. discriminate H.
  - intros name params [H | []]. injection H as _ <-. reflexivity.
  - intros mask H. rewrite canvas_size in H. vm_compute in H. discriminate H.
Qed.

(** The drawing statements of C3 on the empty disk, and the run after
    them. *)
Lemma c3_rendering_fixed_on_empty_disk :
  create_app_icon box_mask nearest (start ∅) = Ok (tt, demo_final)
  /\ exists lg io,
       draw_icon box_mask (start ∅) = Ok (tt, mkState (img demo_final) ∅ lg)
       /\ forallb is_draw lg = true
       /\ forallb (fun e => negb (is_draw e)) io = true
       /\ log demo_final = (lg ++ io)%list.
Proof.
  split; [ apply run_on_empty_disk | ].
  destruct (c3_rendering_fixed box_mask nearest ∅ ∅)
    as (_ & im & lg & io & Hdraw & _ & _ & Hlg & Hio & Hrun).
  destruct (Hrun demo_final (run_on_empty_disk box_mask nearest)) as [Him Hlog].
  exists lg, io. rewrite Him. auto.
Defined.

(** The run of C1 on the empty disk, with the bounding-box rasteriser and
    nearest-neighbour resampling. *)
Lemma c1_exported_files_on_empty_disk :
  create_app_icon box_mask nearest (start ∅) = Ok (tt, demo_final)
  /\ sizes = [ (16, "16x16"); (32, "16x16@2x"); (32, "32x32"); (64, "32x32@2x");
               (128, "128x128"); (256, "128x128@2x"); (256, "256x256");
               (512, "256x256@2x"); (512, "512x512"); (1024, "512x512@2x") ]
  /\ saves (log demo_final)
     = map (fun e => ("AppIcon.appiconset/icon_" +:+ snd e +:+ ".png",
                      (fst e, fst e))) sizes
  /\ length (saves (log demo_final)) = 10%nat
  /\ Forall (fun e =>
               exists im,
                 fs demo_final !! ("AppIcon.appiconset/icon_" +:+ snd e +:+ ".png")
                 = Some (Png im)
                 /\ fst (im_size im) = fst e /\ snd (im_size im) = fst e) sizes.
Proof.
  split.
  - apply run_on_empty_disk.
  - apply (c1_exported_files box_mask nearest ∅ demo_final).
    apply run_on_empty_disk.
Defined.

(** The run of C2 on the empty disk. *)
Lemma c2_manifest_consistent_on_empty_disk :
  create_app_icon box_mask nearest (start ∅) = Ok (tt, demo_final)
  /\ exists text entries,
       fs demo_final !! "AppIcon.appiconset/Contents.json" = Some (Text text)
       /\ manifest_entries text = Some entries
       /\ length entries = 10%nat
       /\ map e_filename entries = map (fun e => "icon_" +:+ snd e +:+ ".png") sizes
       /\ Forall (fun e => e_idiom e = "mac") entries
       /\ Forall (fun e =>
                    exists n k im,
                      points_of (e_size e) = Some n
                      /\ factor_of (e_scale e) = Some k
                      /\ (e_scale e = "1x" /\ k = 1 \/ e_scale e = "2x" /\ k = 2)
                      /\ fs demo_final !! ("AppIcon.appiconset/" +:+ e_filename e)
                         = Some (Png im)
                      /\ im_size im = (k * n, k * n)) entries.
Proof.
  split.
  - apply run_on_empty_disk.
  - apply (c2_manifest_consistent box_mask nearest ∅ demo_final).
    apply run_on_empty_disk.
Defined.

(** The two runs of C4, the first on the empty disk. *)
Lemma c4_deterministic_idempotent_on_empty_disk :
  create_app_icon box_mask nearest (start ∅) = Ok (tt, demo_final)
  /\ exists st2,
       create_app_icon box_mask nearest (start (fs demo_final)) = Ok (tt, st2)
       /\ fs st2 = fs demo_final
       /\ dom (fs st2) = dom (fs demo_final)
       /\ fs st2 !! contents_path = Some (Text contents_json)
       /\ fs demo_final !! contents_path = Some (Text contents_json).
Proof.
  split.
  - apply run_on_empty_disk.
  - apply (c4_deterministic_idempotent box_mask nearest ∅ demo_final).
    apply run_on_empty_disk.
Defined.

(** The run of X13 on the empty disk; the bounding-box rasteriser keeps
    every shape within its bounding box. *)
Lemma saved_icons_opaque_on_empty_disk :
  create_app_icon box_mask nearest (start ∅) = Ok (tt, demo_final)
  /\ (forall s x y, box_mask s x y = true -> in_bbox s x y = true)
  /\ exists im,
       img demo_final = Some im
       /\ im_mode im = RGB /\ has_alpha (im_mode im) = false
       /\ (forall x y, opacity im x y = 255)
       /\ Forall (fun e =>
                    exists icon,
                      fs demo_final !! ("AppIcon.appiconset/icon_" +:+ snd e +:+ ".png")
                      = Some (Png icon)
                      /\ im_mode icon = RGB /\ has_alpha (im_mode icon) = false
                      /\ forall x y, opacity icon x y = 255) sizes
       /\ getcolor bg_color (im_mode im) = Some [44; 62; 80]
       /\ (forall x y, in_corner x y ->
                       im_px im x y = [44; 62; 80] /\ opacity im x y = 255).
Proof.
  split; [ apply run_on_empty_disk | ].
  split; [ intros s x y H; exact H | ].
  destruct (saved_icons_opaque box_mask nearest ∅ demo_final
              (run_on_empty_disk box_mask nearest))
    as (im & Him & Hmode & Halpha & Hop & Hicons & Hbg & Hcorner).
  exists im. repeat (split; [ assumption | ]).
  apply Hcorner. intros s x y H. exact H.
Defined.

(** * More of the script's behaviour *)

Section Outcomes.

Variable mask : Shape -> Z -> Z -> bool.
Variable resample : Resampling -> Image -> Z * Z -> Z -> Z -> Pixel.

(** ** When the loop fails *)

Lemma dir_or_not (disk : gmap string Node) (l : list string) :
  Forall (fun p => disk !! p <> Some Dir) l
  \/ Exists (fun p => disk !! p = Some Dir) l.
Proof.
  induction l as [|p l [IH | IH]].
  - left. constructor.
  - destruct (disk !! p) as [[]|] eqn:E.
    + right. constructor. exact E.
    + left. constructor; [ rewrite E; discriminate | exact IH ].
    + left. constructor; [ rewrite E; discriminate | exact IH ].
    + left. constructor; [ rewrite E; discriminate | exact IH ].
  - right. apply Exists_cons_tl. exact IH.
Qed.

(** The loop of lines 120-123 stops with [IsADirectoryError] when the
    path of some entry is a directory. *)
Lemma export_loop_fails (l : list (Z * string)) :
  Forall (fun e => plain_name (snd e)) l ->
  forall (st : State) (im : Image),
    img st = Some im ->
    fs st !! output_dir = Some Dir ->
    Exists (fun e => fs st !! icon_path (snd e) = Some Dir) l ->
    for_ l (fun '(pixel_size, name) =>
      resized <- resize resample (pixel_size, pixel_size) LANCZOS ;;
      save resized (output_dir +:+ "/icon_" +:+ name +:+ ".png") ;;;
      print ("Created icon_" +:+ name +:+ ".png (" +:+ str pixel_size +:+ "x"
             +:+ str pixel_size +:+ ")")) st = Raise IsADirectoryError.
Proof.
  induction 1 as [|[pixel_size name] l Hname _ IH]; intros st im Him Hout Hex.
  - inversion Hex.
  - cbn [snd] in Hname. cbn [for_]. unfold bind at 1.
    rewrite (export_step resample _ _ _ im Hname Him Hout).
    assert (Hnext : forall v, fs st !! icon_path name <> Some Dir ->
              Exists (fun e => <[icon_path name := Png v]> (fs st)
                                 !! icon_path (snd e) = Some Dir) l).
    { intros v Hhere. apply Exists_cons in Hex as [Hex | Hex];
        [ cbn [snd] in Hex; contradiction | ].
      eapply Exists_impl; [ exact Hex | ]. intros e He. cbv beta in He |- *.
      destruct (decide (icon_path name = icon_path (snd e))) as [Heq | Hne].
      - rewrite <- Heq in He. contradiction.
      - rewrite lookup_insert_ne by exact Hne. exact He. }
    destruct (fs st !! icon_path name) as [[]|] eqn:E; [ reflexivity | | | ];
      (eapply (IH _ im);
       [ reflexivity
       | cbn [fs]; rewrite lookup_insert_ne;
         [ exact Hout | by apply icon_path_not_output_dir ]
       | cbn [fs]; apply Hnext; discriminate ]).
Qed.

(** ** How a run ends *)

Lemma lookup_after_makedirs (disk : gmap string Node) (name : string) :
  plain_name name ->
  <[output_dir := Dir]> disk !! icon_path name = disk !! icon_path name.
Proof.
  intros Hname. apply lookup_insert_ne. intros E. symmetry in E. revert E.
  by apply icon_path_not_output_dir.
Qed.

(** A run up to the export loop: the drawing always succeeds, and
    [makedirs] fails exactly on a file in the place of the directory. *)
Lemma run_unfold (disk : gmap string Node) :
  create_app_icon mask resample (start disk)
  = match disk !! output_dir with
    | Some (Png _) | Some (Text _) => Raise FileExistsError
    | _ =>
        match for_ sizes (fun '(pixel_size, name) =>
                resized <- resize resample (pixel_size, pixel_size) LANCZOS ;;
                save resized (output_dir +:+ "/icon_" +:+ name +:+ ".png") ;;;
                print ("Created icon_" +:+ name +:+ ".png (" +:+ str pixel_size
                       +:+ "x" +:+ str pixel_size +:+ ")"))
              (mkState (Some (canvas mask)) (<[output_dir := Dir]> disk)
                       (draw_log ++ [Makedirs output_dir]))
        with
        | Ok (_, st') => (write_contents ;;; print_next_steps) st'
        | Raise e => Raise e
        end
    end.
Proof.
  unfold create_app_icon. unfold bind at 1. rewrite draw_icon_run.
  unfold bind at 1. unfold export_icons. unfold bind at 1.
  rewrite makedirs_output_dir. cbn [fs img log].
  destruct (disk !! output_dir) as [[]|]; reflexivity.
Qed.

(** The three ways a run can end, and the disks on which each happens. *)
Lemma run_result (disk : gmap string Node) :
  (exists n, disk !! output_dir = Some n /\ n <> Dir
             /\ create_app_icon mask resample (start disk) = Raise FileExistsError)
  \/ ((disk !! output_dir = None \/ disk !! output_dir = Some Dir)
      /\ Exists (fun p => disk !! p = Some Dir) targets
      /\ create_app_icon mask resample (start disk) = Raise IsADirectoryError)
  \/ (clear disk
      /\ create_app_icon mask resample (start disk)
         = Ok (tt, mkState (Some (canvas mask))
                     (put_all (all_writes mask resample) disk) run_log)).
Proof.
  assert (Hout : (exists n, disk !! output_dir = Some n /\ n <> Dir)
                 \/ disk !! output_dir = None \/ disk !! output_dir = Some Dir).
  { destruct (disk !! output_dir) as [[]|]; eauto; left; eexists; split;
      try reflexivity; discriminate. }
  destruct Hout as [(n & Hn & Hnd) | Hout].
  { left. exists n. split; [ exact Hn | ]. split; [ exact Hnd | ].
    rewrite run_unfold, Hn. destruct n; [ contradiction | reflexivity | reflexivity ]. }
  right.
  destruct (dir_or_not disk targets) as [Hfree | Hdir].
  { right. assert (Hclear : clear disk) by (split; assumption).
    split; [ exact Hclear | ].
    destruct (run_returns mask resample disk Hclear) as [st Hrun].
    rewrite Hrun. f_equal. f_equal. by apply run_inv. }
  left. split; [ exact Hout | ]. split; [ exact Hdir | ].
  rewrite run_unfold.
  assert (Hmk : forall (A : Type) (a b : A),
             match disk !! output_dir with
             | Some (Png _) | Some (Text _) => a
             | _ => b
             end = b).
  { intros A a b. destruct Hout as [-> | ->]; reflexivity. }
  rewrite Hmk. clear Hmk.
  set (s1 := mkState (Some (canvas mask)) (<[output_dir := Dir]> disk)
                     (draw_log ++ [Makedirs output_dir])).
  assert (Hs1 : fs s1 !! output_dir = Some Dir) by apply lookup_insert_eq.
  destruct (dir_or_not disk (map (fun '(_, name) => icon_path name) sizes))
    as [Hicons | Hicons].
  - (* every icon is saved; Contents.json is the directory *)
    unfold targets in Hdir. apply Exists_app in Hdir as [Hdir | Hdir].
    { exfalso. apply Exists_exists in Hdir as (p & Hp & Hpd).
      rewrite Forall_forall in Hicons. exact (Hicons p Hp Hpd). }
    apply Exists_cons in Hdir as [Hdir | Hdir]; [ | inversion Hdir ].
    assert (Hfree : Forall (fun e => fs s1 !! icon_path (snd e) <> Some Dir) sizes).
    { rewrite Forall_forall in Hicons.
      pose proof sizes_plain as Hplain. rewrite Forall_forall in Hplain.
      apply Forall_forall. intros [pixel_size name] Hin. cbn [snd fs s1].
      rewrite lookup_after_makedirs by exact (Hplain _ Hin).
      apply Hicons. apply list_elem_of_In.
      apply (in_map (fun '(_, name) => icon_path name) sizes (pixel_size, name)).
      by apply list_elem_of_In. }
    destruct (export_loop_returns resample sizes sizes_plain s1 (canvas mask)
                eq_refl Hs1 Hfree) as [st1 Hloop].
    rewrite Hloop.
    apply (export_loop resample sizes sizes_plain s1 st1 (canvas mask) eq_refl Hs1)
      in Hloop.
    subst st1. unfold bind. rewrite write_contents_step;
      [ | cbn [fs s1]; rewrite put_all_lookup_other;
          [ apply lookup_insert_eq | vm_compute; reflexivity ] ].
    cbn [fs s1].
    rewrite put_all_lookup_other by (vm_compute; reflexivity).
    rewrite lookup_insert_ne by discriminate.
    rewrite Hdir. reflexivity.
  - (* some icon path is a directory *)
    rewrite (export_loop_fails sizes sizes_plain s1 (canvas mask) eq_refl Hs1);
      [ reflexivity | ].
    apply List.Exists_map in Hicons.
    apply Exists_exists in Hicons as ([pixel_size name] & Hin & Hp).
    apply Exists_exists. exists (pixel_size, name). split; [ exact Hin | ].
    cbn [snd fs s1]. rewrite lookup_after_makedirs; [ exact Hp | ].
    pose proof sizes_plain as Hplain. rewrite Forall_forall in Hplain.
    exact (Hplain _ Hin).
Qed.

(** X1. A run returns only on a disk where the output directory is
    absent or a directory and none of the eleven paths it writes is a
    directory: a file in the place of the directory, or a directory in
    the place of an icon or of [Contents.json], always stops it. *)
Theorem run_returns_only_if_clear (disk : gmap string Node) (st : State) :
  create_app_icon mask resample (start disk) = Ok (tt, st) -> clear disk.
Proof.
  intros Hrun.
  destruct (run_result disk)
    as [(n & _ & _ & H) | [(_ & _ & H) | (Hclear & _)]];
    [ rewrite H in Hrun; discriminate Hrun
    | rewrite H in Hrun; discriminate Hrun
    | exact Hclear ].
Qed.

(** X2. A run stops with [FileExistsError] exactly when a file that is
    not a directory stands at the path of the output directory:
    [exist_ok=True] accepts a directory only. *)
Theorem run_file_exists_error (disk : gmap string Node) :
  create_app_icon mask resample (start disk) = Raise FileExistsError
  <-> exists n, disk !! output_dir = Some n /\ n <> Dir.
Proof.
  split.
  - intros Hrun.
    destruct (run_result disk)
      as [(n & Hn & Hnd & _) | [(_ & _ & H) | (_ & H)]];
      [ exists n; split; assumption
      | rewrite H in Hrun; discriminate Hrun
      | rewrite H in Hrun; discriminate Hrun ].
  - intros (n & Hn & Hnd).
    destruct (run_result disk)
      as [(_ & _ & _ & H) | [([Ho | Ho] & _) | ([[Ho | Ho] _] & _)]];
      [ exact H | | | | ]; rewrite Ho in Hn; congruence.
Qed.

(** X3. A run stops with [IsADirectoryError] only when one of the
    paths it writes, an icon or [Contents.json], is a directory (and the
    output directory itself could be had). *)
Theorem is_a_directory_error_only_if (disk : gmap string Node) :
  create_app_icon mask resample (start disk) = Raise IsADirectoryError ->
  (disk !! output_dir = None \/ disk !! output_dir = Some Dir)
  /\ Exists (fun p => disk !! p = Some Dir) targets.
Proof.
  intros Hrun.
  destruct (run_result disk)
    as [(_ & _ & _ & H) | [(Hout & Hdir & _) | (_ & H)]];
    [ rewrite H in Hrun; discriminate Hrun
    | split; assumption
    | rewrite H in Hrun; discriminate Hrun ].
Qed.

(** ** What a run leaves on the disk *)




(** X6. Every icon a run saves is the [LANCZOS] resize of the finished
    canvas, the image the run ends with; so two icons of the same pixel
    size, such as [icon_16x16@2x.png] and [icon_32x32.png], are the same
    image. *)
Theorem icons_resized_from_canvas (disk : gmap string Node) (st : State) :
  create_app_icon mask resample (start disk) = Ok (tt, st) ->
  exists im,
    img st = Some im
    /\ Forall (fun e =>
                 fs st !! (output_dir +:+ "/icon_" +:+ snd e +:+ ".png")
                 = Some (Png (mkImage (im_mode im) (fst e, fst e)
                                      (resample LANCZOS im (fst e, fst e))))) sizes
    /\ forall pixel_size name1 name2,
         In (pixel_size, name1) sizes -> In (pixel_size, name2) sizes ->
         fs st !! (output_dir +:+ "/icon_" +:+ name1 +:+ ".png")
         = fs st !! (output_dir +:+ "/icon_" +:+ name2 +:+ ".png").
Proof.
  intros Hrun. apply run_inv in Hrun. subst st. cbn [img fs].
  exists (canvas mask). split; [ reflexivity | ].
  assert (Hall : Forall (fun e =>
             put_all (all_writes mask resample) disk
               !! (output_dir +:+ "/icon_" +:+ snd e +:+ ".png")
             = Some (Png (mkImage (im_mode (canvas mask)) (fst e, fst e)
                            (resample LANCZOS (canvas mask) (fst e, fst e))))) sizes).
  { unfold sizes. repeat apply Forall_cons_2; try apply Forall_nil_2; cbn [fst snd];
      apply put_all_lookup; vm_compute; reflexivity. }
  split; [ exact Hall | ].
  intros pixel_size name1 name2 H1 H2. rewrite Forall_forall in Hall.
  apply list_elem_of_In in H1, H2.
  pose proof (Hall _ H1) as E1. pose proof (Hall _ H2) as E2.
  cbn [fst snd] in E1, E2. rewrite E1, E2. reflexivity.
Qed.

(** ** The pixels of the canvas *)

(** After a list of fills, a pixel has the ink of the last shape that
    touches it, and keeps its value where none does. *)
Lemma paint_all_px (ds : list (Shape * string)) (im : Image) (x y : Z) :
  im_px (paint_all mask ds im) x y
  = match find (fun d => mask (fst d) x y) (rev ds) with
    | Some d => ink (snd d)
    | None => im_px im x y
    end.
Proof.
  induction ds as [|d ds IH] using rev_ind; [ reflexivity | ].
  unfold paint_all. rewrite fold_left_app, rev_unit. cbn [fold_left find im_px paint].
  destruct (mask (fst d) x y); [ reflexivity | exact IH ].
Qed.

(** The finished canvas is the created image with the logged fills on it. *)
Lemma canvas_px (x y : Z) :
  im_px (canvas mask) x y
  = match top_shape mask x y with
    | Some d => ink (snd d)
    | None => ink "#2C3E50"
    end.
Proof.
  transitivity (im_px (paint_all mask (draws draw_log)
                         (mkImage RGB (size, size) (fun _ _ => ink "#2C3E50"))) x y).
  - vm_compute. reflexivity.
  - rewrite paint_all_px. reflexivity.
Qed.

Lemma canvas_px_cases (x y : Z) :
  im_px (canvas mask) x y = ink "#2C3E50"
  \/ exists s fill,
       In (s, fill) (draws draw_log) /\ mask s x y = true
       /\ im_px (canvas mask) x y = ink fill.
Proof.
  rewrite canvas_px. unfold top_shape.
  destruct (find _ _) as [[s fill]|] eqn:E; [ right | left; reflexivity ].
  apply find_some in E as [Hin Hm]. exists s, fill.
  split; [ apply in_rev; exact Hin | ]. split; [ exact Hm | reflexivity ].
Qed.

(** X7. The drawing is a painter's algorithm: whatever pixels the
    rasteriser gives each shape, a pixel of the finished canvas has the
    fill of the last shape drawn that touches it, and the creation colour
    where no shape does. *)
Theorem canvas_last_shape_wins (disk : gmap string Node) :
  exists st im,
    draw_icon mask (start disk) = Ok (tt, st)
    /\ img st = Some im
    /\ forall x y,
         im_px im x y = match top_shape mask x y with
                        | Some d => ink (snd d)
                        | None => ink "#2C3E50"
                        end.
Proof.
  exists (mkState (Some (canvas mask)) disk draw_log), (canvas mask).
  split; [ apply draw_icon_run | ]. split; [ reflexivity | ].
  exact canvas_px.
Qed.

Lemma draws_in_palette :
  Forall (fun d => In (snd d) palette) (draws draw_log).
Proof.
  apply (forallb_Forall (fun d => existsb (String.eqb (snd d)) palette)).
  - intros d H. apply existsb_exists in H as (c & Hc & Heq).
    apply String.eqb_eq in Heq. subst c. exact Hc.
  - vm_compute. reflexivity.
Qed.

(** X8. The finished canvas holds the inks of the four colours of the
    script and no other: background, pane, accent and arrow. *)
Theorem canvas_palette (disk : gmap string Node) :
  exists st im,
    draw_icon mask (start disk) = Ok (tt, st)
    /\ img st = Some im
    /\ map ink palette
       = [ [44; 62; 80]; [236; 240; 241]; [52; 152; 219]; [231; 76; 60] ]
    /\ forall x y, In (im_px im x y) (map ink palette).
Proof.
  exists (mkState (Some (canvas mask)) disk draw_log), (canvas mask).
  split; [ apply draw_icon_run | ]. split; [ reflexivity | ].
  split; [ reflexivity | ].
  intros x y. destruct (canvas_px_cases x y) as [-> | (s & fill & Hin & _ & ->)].
  - left. reflexivity.
  - apply in_map. pose proof draws_in_palette as H.
    rewrite Forall_forall in H. apply list_elem_of_In in Hin. exact (H _ Hin).
Qed.

(** X9. Where the rasteriser keeps every shape within its bounding box,
    each colour stays in its place: the arrow colour appears only in the
    band between the panes, the pane and accent colours only inside the
    bounding box of a pane, and everything else is background. *)
Theorem canvas_colour_regions (disk : gmap string Node) :
  (forall s x y, mask s x y = true -> in_bbox s x y = true) ->
  exists st im,
    draw_icon mask (start disk) = Ok (tt, st)
    /\ img st = Some im
    /\ forall x y,
         (im_px im x y = ink arrow_color -> in_gap x y)
         /\ (im_px im x y = ink accent_color -> in_panes x y)
         /\ (im_px im x y = ink pane_color -> in_panes x y)
         /\ (~ in_gap x y -> ~ in_panes x y -> im_px im x y = ink bg_color).
Proof.
  intros Hbbox.
  exists (mkState (Some (canvas mask)) disk draw_log), (canvas mask).
  split; [ apply draw_icon_run | ]. split; [ reflexivity | ].
  intros x y.
  change (ink arrow_color) with [231; 76; 60].
  change (ink accent_color) with [52; 152; 219].
  change (ink pane_color) with [236; 240; 241].
  change (ink bg_color) with [44; 62; 80].
  destruct (canvas_px_cases x y) as [-> | (s & fill & Hin & Hm & ->)].
  { change (ink "#2C3E50") with [44; 62; 80].
    repeat split; intros; first [ discriminate | reflexivity ]. }
  apply Hbbox in Hm. vm_compute in Hin.
  repeat (destruct Hin as [Hin | Hin];
          [ injection Hin as <- <-; bbox_bounds Hm;
            set (v := ink _); vm_compute in v; subst v;
            cbv [in_gap in_panes arrow_start_x arrow_end_x arrow_y arrow_y2
                 left_pane_x right_pane_x pane_width left_pane_y pane_height];
            repeat split; intros;
            first [ discriminate | reflexivity | lia | exfalso; lia ]
          | ]).
  contradiction.
Qed.

(** ** The export loop on any table *)

Lemma put_all_lookup_notin (kvs : list (string * Node)) (m : gmap string Node)
      (k : string) :
  ~ In k (map fst kvs) -> put_all kvs m !! k = m !! k.
Proof.
  revert m. induction kvs as [|[k0 v0] kvs IH]; intros m Hk; [ reflexivity | ].
  cbn [put_all]. rewrite IH by (intros H; apply Hk; right; exact H).
  apply lookup_insert_ne. intros ->. apply Hk. left. reflexivity.
Qed.

(** A path that was written holds one of the nodes written to it,
    whatever the disk held. *)
Lemma put_all_lookup_in (kvs : list (string * Node)) (k : string) :
  In k (map fst kvs) ->
  exists v, In (k, v) kvs /\ forall m, put_all kvs m !! k = Some v.
Proof.
  induction kvs as [|[k0 v0] kvs IH]; intros Hk; [ destruct Hk | ].
  destruct (in_dec String.string_dec k (map fst kvs)) as [Hlater | Hlast].
  - destruct (IH Hlater) as (v & Hv & Hlookup).
    exists v. split; [ right; exact Hv | ]. intros m. apply Hlookup.
  - destruct Hk as [Hk | Hk]; [ | contradiction ]. cbn [fst] in Hk. subst k0.
    exists v0. split; [ left; reflexivity | ]. intros m. cbn [put_all].
    rewrite put_all_lookup_notin by exact Hlast. apply lookup_insert_eq.
Qed.


(** X11. Under the same conditions, a directory at the path of some
    entry before the loop starts keeps the loop from returning, and the
    loop stops with [IsADirectoryError] only when there is one: the
    saves of earlier entries create files, never directories. *)
Theorem export_loop_blocked_by_directory (l : list (Z * string)) (st : State)
        (im : Image) :
  Forall (fun en => plain_name (snd en)) l ->
  img st = Some im ->
  fs st !! output_dir = Some Dir ->
  (for_ l (fun '(pixel_size, name) =>
     resized <- resize resample (pixel_size, pixel_size) LANCZOS ;;
     save resized (output_dir +:+ "/icon_" +:+ name +:+ ".png") ;;;
     print ("Created icon_" +:+ name +:+ ".png (" +:+ str pixel_size +:+ "x"
            +:+ str pixel_size +:+ ")")) st = Raise IsADirectoryError ->
   Exists (fun en => fs st !! icon_path (snd en) = Some Dir) l)
  /\ (Exists (fun en => fs st !! icon_path (snd en) = Some Dir) l ->
      forall st',
        for_ l (fun '(pixel_size, name) =>
          resized <- resize resample (pixel_size, pixel_size) LANCZOS ;;
          save resized (output_dir +:+ "/icon_" +:+ name +:+ ".png") ;;;
          print ("Created icon_" +:+ name +:+ ".png (" +:+ str pixel_size +:+ "x"
                 +:+ str pixel_size +:+ ")")) st <> Ok (tt, st')).
Proof.
  intros Hplain Him Hout.
  assert (Hdec : Forall (fun en => fs st !! icon_path (snd en) <> Some Dir) l
                 \/ Exists (fun en => fs st !! icon_path (snd en) = Some Dir) l).
  { destruct (dir_or_not (fs st) (map (fun en => icon_path (snd en)) l))
      as [H | H].
    - left. rewrite Forall_forall in H. apply Forall_forall. intros en Hen.
      apply H, list_elem_of_In.
      apply (in_map (fun en => icon_path (snd en)) l en).
      by apply list_elem_of_In.
    - right. apply Exists_exists in H as (p & Hp & Hd).
      apply list_elem_of_In, in_map_iff in Hp as (en & <- & Hen).
      apply Exists_exists. exists en. split; [ by apply list_elem_of_In | exact Hd ]. }
  split.
  - intros Hrun. destruct Hdec as [Hfree | Hdir]; [ | exact Hdir ].
    destruct (export_loop_returns resample l Hplain st im Him Hout Hfree)
      as [st' Hok].
    rewrite Hok in Hrun. discriminate Hrun.
  - intros Hdir st' Hok.
    rewrite (export_loop_fails l Hplain st im Him Hout Hdir) in Hok.
    discriminate Hok.
Qed.

(** ** Reproducible output *)

Lemma written_first : map fst (all_writes mask resample) = written.
Proof. vm_compute. reflexivity. Qed.

(** X12. What a returning run leaves at the twelve paths it writes does
    not depend on what the disk held: two runs on any two disks end with
    the same node at each of these paths. *)
Theorem run_output_independent_of_disk (disk1 disk2 : gmap string Node)
        (st1 st2 : State) :
  create_app_icon mask resample (start disk1) = Ok (tt, st1) ->
  create_app_icon mask resample (start disk2) = Ok (tt, st2) ->
  forall p, In p written ->
            is_Some (fs st1 !! p) /\ fs st1 !! p = fs st2 !! p.
Proof.
  intros H1 H2 p Hp. apply run_inv in H1, H2. subst st1 st2. cbn [fs].
  rewrite <- written_first in Hp.
  destruct (put_all_lookup_in (all_writes mask resample) p Hp) as (v & _ & Hv).
  rewrite (Hv disk1), (Hv disk2). split; [ eexists | ]; reflexivity.
Qed.

(** On a clear disk the run returns in the state [run_inv] describes. *)
Lemma run_on_clear_disk (disk : gmap string Node) :
  clear disk ->
  create_app_icon mask resample (start disk)
  = Ok (tt, mkState (Some (canvas mask)) (put_all (all_writes mask resample) disk)
                    run_log).
Proof.
  intros Hclear. destruct (run_returns mask resample disk Hclear) as [st Hrun].
  rewrite Hrun. f_equal. f_equal. by apply run_inv.
Qed.

End Outcomes.

(** X1 on the empty disk. *)
Lemma run_returns_only_if_clear_on_empty_disk :
  create_app_icon box_mask nearest (start ∅) = Ok (tt, demo_final) /\ clear ∅.
Proof.
  split; [ apply run_on_empty_disk | ].
  exact (run_returns_only_if_clear box_mask nearest ∅ demo_final
           (run_on_empty_disk box_mask nearest)).
Defined.

(** X2 on a disk with a file in the place of the output directory. *)
Lemma run_file_exists_error_on_file :
  (exists n, disk_with_file !! output_dir = Some n /\ n <> Dir)
  /\ create_app_icon box_mask nearest (start disk_with_file) = Raise FileExistsError.
Proof.
  assert (H : exists n, disk_with_file !! output_dir = Some n /\ n <> Dir).
  { exists (Text "not a directory"). split; [ vm_compute; reflexivity | discriminate ]. }
  split; [ exact H | ].
  apply (proj2 (run_file_exists_error box_mask nearest disk_with_file)). exact H.
Defined.

(** X3 on a disk where [Contents.json] is a directory. *)
Lemma is_a_directory_error_only_if_on_subdir :
  create_app_icon box_mask nearest (start disk_with_subdir) = Raise IsADirectoryError
  /\ (disk_with_subdir !! output_dir = None \/ disk_with_subdir !! output_dir = Some Dir)
  /\ Exists (fun p => disk_with_subdir !! p = Some Dir) targets.
Proof.
  assert (H : create_app_icon box_mask nearest (start disk_with_subdir)
              = Raise IsADirectoryError) by (vm_compute; reflexivity).
  split; [ exact H | ].
  exact (is_a_directory_error_only_if box_mask nearest disk_with_subdir H).
Defined.

Lemma clear_with_notes : clear disk_with_notes.
Proof.
  split; [ left; vm_compute; reflexivity | ].
  unfold targets, sizes. cbn [map app].
  repeat apply Forall_cons_2; try apply Forall_nil_2; vm_compute; discriminate.
Qed.


(** X6 on the empty disk. *)
Lemma icons_resized_from_canvas_on_empty_disk :
  create_app_icon box_mask nearest (start ∅) = Ok (tt, demo_final)
  /\ fs demo_final !! (output_dir +:+ "/icon_" +:+ "16x16@2x" +:+ ".png")
     = fs demo_final !! (output_dir +:+ "/icon_" +:+ "32x32" +:+ ".png").
Proof.
  split; [ apply run_on_empty_disk | ].
  destruct (icons_resized_from_canvas box_mask nearest ∅ demo_final
              (run_on_empty_disk box_mask nearest)) as (im & _ & _ & Hsame).
  apply (Hsame 32); unfold sizes; cbn; tauto.
Defined.

(** X9 with the bounding-box rasteriser. *)
Lemma canvas_colour_regions_box_mask :
  (forall s x y, box_mask s x y = true -> in_bbox s x y = true)
  /\ exists st im,
       draw_icon box_mask (start ∅) = Ok (tt, st)
       /\ img st = Some im
       /\ forall x y,
            (im_px im x y = ink arrow_color -> in_gap x y)
            /\ (im_px im x y = ink accent_color -> in_panes x y)
            /\ (im_px im x y = ink pane_color -> in_panes x y)
            /\ (~ in_gap x y -> ~ in_panes x y -> im_px im x y = ink bg_color).
Proof.
  split; [ intros s x y H; exact H | ].
  apply (canvas_colour_regions box_mask ∅). intros s x y H. exact H.
Defined.

Lemma small_table_plain : Forall (fun e => plain_name (snd e)) small_table.
Proof. repeat constructor. Qed.


(** X11 on a state where the path of the icon is a directory. *)
Lemma export_loop_blocked_by_directory_small :
  Exists (fun en => fs loop_start_blocked !! icon_path (snd en) = Some Dir) small_table
  /\ for_ small_table (fun '(pixel_size, name) =>
       resized <- resize nearest (pixel_size, pixel_size) LANCZOS ;;
       save resized (output_dir +:+ "/icon_" +:+ name +:+ ".png") ;;;
       print ("Created icon_" +:+ name +:+ ".png (" +:+ str pixel_size +:+ "x"
              +:+ str pixel_size +:+ ")")) loop_start_blocked
     <> Ok (tt, loop_end).
Proof.
  assert (Hdir : Exists (fun en => fs loop_start_blocked !! icon_path (snd en)
                                   = Some Dir) small_table).
  { constructor. vm_compute. reflexivity. }
  split; [ exact Hdir | ].
  exact (proj2 (export_loop_blocked_by_directory nearest small_table
                  loop_start_blocked blank small_table_plain eq_refl
                  ltac:(vm_compute; reflexivity))
               Hdir loop_end).
Defined.

(** X12 on the empty disk and on the disk with an unrelated file. *)
Lemma run_output_independent_of_disk_two_disks :
  exists st1 st2,
    create_app_icon box_mask nearest (start ∅) = Ok (tt, st1)
    /\ create_app_icon box_mask nearest (start disk_with_notes) = Ok (tt, st2)
    /\ In contents_path written
    /\ fs st1 !! contents_path = fs st2 !! contents_path.
Proof.
  do 2 eexists.
  split; [ exact (run_on_empty_disk box_mask nearest) | ].
  split; [ exact (run_on_clear_disk box_mask nearest _ clear_with_notes) | ].
  assert (Hin : In contents_path written) by (vm_compute; tauto).
  split; [ exact Hin | ].
  exact (proj2 (run_output_independent_of_disk box_mask nearest ∅ disk_with_notes
                  _ _ (run_on_empty_disk box_mask nearest)
                  (run_on_clear_disk box_mask nearest _ clear_with_notes)
                  contents_path Hin)).
Defined.
